(** * Registration intake of the HIET Tech Fest backend (src/BACKEND/server.js)

    A shallow embedding of the Express/Mongoose registration server:
    the multer upload filter, the express-validator chain, the
    document-hash and (event, teamName) duplicate checks, the MongoDB
    unique indexes of [registrationSchema], the confirmation mail, the
    Excel snapshot and the e-mail confirmation route.  The in-memory
    variant (src/unnamed/part_001), with its own upload filter, validators,
    schema, error handling and export route, is modelled beside it. *)

From Stdlib Require Import Ascii String ZArith Bool.
From stdpp Require Import base list strings pretty.

Local Open Scope bool_scope.

Infix "+:+" := String.append (at level 60, right associativity).

(* ------------------------------------------------------------------ *)
(** ** JavaScript string primitives (ASCII model) *)

(** [String.prototype.toLowerCase] on the ASCII range. *)
Definition lower_char (c : ascii) : ascii :=
  let n := nat_of_ascii c in
  if (65 <=? n)%nat && (n <=? 90)%nat then ascii_of_nat (n + 32) else c.

Fixpoint toLowerCase (s : string) : string :=
  match s with
  | EmptyString => EmptyString
  | String c t => String (lower_char c) (toLowerCase t)
  end.

(** [s.split(sep)] for a one-character separator. *)
Fixpoint split_on (sep : ascii) (s : string) : list string :=
  match s with
  | EmptyString => [EmptyString]
  | String c t =>
      let parts := split_on sep t in
      if Ascii.eqb c sep then EmptyString :: parts
      else match parts with
           | p :: ps => String c p :: ps
           | [] => [String c EmptyString]
           end
  end.

(** [arr.join(sep)] *)
Definition join (sep : string) (l : list string) : string := String.concat sep l.

(** [s.replace(/\.+/g, dotsReplacer)] of validator.js: a run of exactly one
    dot is removed, longer runs are kept. *)
Fixpoint dots (n : nat) : string :=
  match n with
  | O => EmptyString
  | S k => String "." (dots k)
  end.

Definition flush_dots (run : nat) : string := if (run =? 1)%nat then EmptyString else dots run.

Fixpoint dots_go (run : nat) (s : string) : string :=
  match s with
  | EmptyString => flush_dots run
  | String c t =>
      if Ascii.eqb c "." then dots_go (S run) t
      else flush_dots run +:+ String c (dots_go 0 t)
  end.

Definition removeDots (s : string) : string := dots_go 0 s.

Definition is_empty_str (s : string) : bool :=
  match s with EmptyString => true | _ => false end.

(** JavaScript whitespace [\s] on the ASCII range: space, \t \n \v \f \r. *)
Definition is_space_char (c : ascii) : bool :=
  let n := nat_of_ascii c in (n =? 32)%nat || ((9 <=? n)%nat && (n <=? 13)%nat).

Fixpoint ltrim (s : string) : string :=
  match s with
  | EmptyString => EmptyString
  | String c t => if is_space_char c then ltrim t else s
  end.

Definition rev_str (s : string) : string :=
  string_of_list_ascii (rev (list_ascii_of_string s)).

(** validator.js [trim] = [rtrim (ltrim s)]. *)
Definition trim (s : string) : string := rev_str (ltrim (rev_str (ltrim s))).

Definition is_digit (c : ascii) : bool :=
  let n := nat_of_ascii c in (48 <=? n)%nat && (n <=? 57)%nat.

(** [/jpeg|jpg|png|pdf/.test(s)]: unanchored, i.e. substring search. *)
Fixpoint contains (sub s : string) : bool :=
  String.prefix sub s ||
  match s with
  | EmptyString => false
  | String _ t => contains sub t
  end.

Definition fileTypes_test (s : string) : bool :=
  contains "jpeg" s || contains "jpg" s || contains "png" s || contains "pdf" s.

(** Node's [path.extname] on a file name without '/': the suffix starting at
    the last '.', or "" when there is no dot, when the only dot that matters
    is the first character, or for "..". *)
Fixpoint last_dot_go (i : nat) (acc : option nat) (s : string) : option nat :=
  match s with
  | EmptyString => acc
  | String c t => last_dot_go (S i) (if Ascii.eqb c "." then Some i else acc) t
  end.

Definition extname (name : string) : string :=
  match last_dot_go 0 None name with
  | None | Some 0 => EmptyString
  | Some i => if String.eqb name ".." then EmptyString
              else substring i (String.length name - i) name
  end.

(* ------------------------------------------------------------------ *)
(** ** validator.js [normalizeEmail] with its default options *)

Section NormalizeEmail.
(** The provider domain tables of validator.js (plain data). *)
Variables outlookdotcom_domains yahoo_domains yandex_domains : list string.

Definition icloud_domains : list string := ["icloud.com"; "me.com"].

Definition mem (d : string) (l : list string) : bool := existsb (String.eqb d) l.

Definition head_str (l : list string) : string :=
  match l with [] => EmptyString | x :: _ => x end.

(** [components.length > 1 ? components.slice(0, -1).join('-') : components[0]] *)
Definition yahoo_user (u : string) : string :=
  let components := split_on "-" u in
  if (1 <? length components)%nat then join "-" (removelast components)
  else head_str components.

(** [None] is the [false] the library returns for an empty local part. *)
Definition normalizeEmail (email : string) : option string :=
  let raw_parts := split_on "@" email in
  let domain := List.last raw_parts EmptyString in
  let user := join "@" (removelast raw_parts) in
  let d := toLowerCase domain in
  if String.eqb d "gmail.com" || String.eqb d "googlemail.com" then
    let u := removeDots (head_str (split_on "+" user)) in
    if is_empty_str u then None else Some (toLowerCase u +:+ "@" +:+ "gmail.com")
  else if mem d icloud_domains then
    let u := head_str (split_on "+" user) in
    if is_empty_str u then None else Some (toLowerCase u +:+ "@" +:+ d)
  else if mem d outlookdotcom_domains then
    let u := head_str (split_on "+" user) in
    if is_empty_str u then None else Some (toLowerCase u +:+ "@" +:+ d)
  else if mem d yahoo_domains then
    let u := yahoo_user user in
    if is_empty_str u then None else Some (toLowerCase u +:+ "@" +:+ d)
  else if mem d yandex_domains then
    Some (toLowerCase user +:+ "@" +:+ "yandex.ru")
  else Some (toLowerCase user +:+ "@" +:+ d).
End NormalizeEmail.

(* ------------------------------------------------------------------ *)
(** ** Field validators used by the express-validator chain *)

(** [/^[6-9][0-9]{9}$/] *)
Definition mobile_regex (s : string) : bool :=
  match s with
  | String c t => let n := nat_of_ascii c in
      (54 <=? n)%nat && (n <=? 57)%nat &&
      (String.length t =? 9)%nat && forallb is_digit (list_ascii_of_string t)
  | EmptyString => false
  end.

(** validator.js [isMobilePhone(s, 'en-IN')]: [/^(\+?91|0)?[6789]\d{9}$/]. *)
Definition isMobilePhone_en_IN (s : string) : bool :=
  existsb (fun p => String.prefix p s &&
                    mobile_regex (substring (String.length p) (String.length s) s))
          [""; "0"; "91"; "+91"].

(** validator.js [isLength(s, {min: 12, max: 12})] on ASCII input. *)
Definition isLength_12 (s : string) : bool := (String.length s =? 12)%nat.

(** express-validator [notEmpty()]. *)
Definition notEmpty (s : string) : bool := negb (is_empty_str s).

Fixpoint digits_value (acc : Z) (s : string) : option Z :=
  match s with
  | EmptyString => Some acc
  | String c t => if is_digit c then digits_value (10 * acc + Z.of_nat (nat_of_ascii c - 48)) t
                  else None
  end.

(** [Number(s)] for strings matching [/^[-+]?[0-9]+$/]. *)
Definition parse_int (s : string) : option Z :=
  match s with
  | String c t =>
      if Ascii.eqb c "+" then (if is_empty_str t then None else digits_value 0 t)
      else if Ascii.eqb c "-" then
        (if is_empty_str t then None else option_map Z.opp (digits_value 0 t))
      else digits_value 0 s
  | EmptyString => None
  end.

(** validator.js [isInt(s, {min: 1, max: 4})] (leading zeroes allowed). *)
Definition isInt_1_4 (s : string) : bool :=
  match parse_int s with
  | Some z => (1 <=? z)%Z && (z <=? 4)%Z
  | None => false
  end.

(* ------------------------------------------------------------------ *)
(** ** Data model *)

(** A multipart file part as multer receives it. *)
Record upload := mkUpload {
  originalname : string;
  mimetype : string;
  content : list Byte.byte
}.

(** [req.body] (text fields; a missing field reads as "") and [req.files]. *)
Record request := mkRequest {
  req_registrationId : string; req_event : string; req_teamName : string;
  req_teamLeaderName : string; req_email : string; req_mobile : string;
  req_gender : string; req_college : string; req_course : string;
  req_year : string; req_rollno : string; req_aadhar : string;
  req_teamSize : string;
  req_aadharImage : option upload;
  req_collegeId : option upload
}.

(** A document of the [Registration] model ([registrationSchema]). *)
Record registration := mkRegistration {
  registrationId : string; event : string; teamName : string;
  teamLeaderName : string; email : string; mobile : string;
  gender : string; college : string; course : string; year : string;
  rollno : string; aadhar : string; teamSize : Z;
  aadharImage : string; aadharImageHash : string;
  collegeId : string; collegeIdHash : string;
  createdAt : nat; isConfirmed : bool
}.

Definition set_confirmed (r : registration) : registration :=
  {| registrationId := registrationId r; event := event r; teamName := teamName r;
     teamLeaderName := teamLeaderName r; email := email r; mobile := mobile r;
     gender := gender r; college := college r; course := course r; year := year r;
     rollno := rollno r; aadhar := aadhar r; teamSize := teamSize r;
     aadharImage := aadharImage r; aadharImageHash := aadharImageHash r;
     collegeId := collegeId r; collegeIdHash := collegeIdHash r;
     createdAt := createdAt r; isConfirmed := true |}.

(** A confirmation mail handed to the transporter: recipient and the
    registration id of the confirmation link. *)
Record mail := mkMail { mail_to : string; mail_registrationId : string }.

(** The state the server acts on: the [registrations] collection in natural
    order, the mails delivered by the transporter, and the rows of
    exports/registrations.xlsx as cell texts (no rows: no file; the
    embedded images are not modelled). *)
Record world := mkWorld {
  store : list registration;
  outbox : list mail;
  sheet : list (list string)
}.

(** What the environment decides during one request: the [Date.now()]
    read by multer's [filename] callback for each of the two files, the
    [Date.now()] of the document's [createdAt], and whether the SMTP
    transport accepts a connection and the login. *)
Record env := mkEnv {
  aadharImage_now : nat; collegeId_now : nat; now : nat; smtp_ok : bool
}.

Inductive json :=
  | JError (msg : string)
  | JErrors (errs : list (string * string))
  | JMessage (msg : string)
  | JRegistered (msg : string) (regId : string) (data : registration)
  | JSheet (rows : list (list string)).

Record response := Resp { status : nat; payload : json }.

(** Exceptions thrown inside the [try] block: a MongoServerError carries
    [code] and [keyPattern]; anything else is an [Error] with a message. *)
Inductive exn :=
  | MongoServerError (code : Z) (keyPattern : list string)
  | JsError (message : string).

(* ------------------------------------------------------------------ *)
(** ** A state-and-exception monad for the async handler body *)

Definition M (A : Type) : Type := world -> world * (exn + A).

Definition ret {A} (a : A) : M A := fun w => (w, inr a).
Definition bind {A B} (m : M A) (k : A -> M B) : M B :=
  fun w => match m w with
           | (w', inl e) => (w', inl e)
           | (w', inr a) => k a w'
           end.
Definition throw {A} (e : exn) : M A := fun w => (w, inl e).
Definition get_world : M world := fun w => (w, inr w).
Definition put_world (w' : world) : M unit := fun _ => (w', inr tt).

Notation "'let!' x := m 'in' k" := (bind m (fun x => k))
  (at level 200, x name, m at level 100, k at level 200).

(* ------------------------------------------------------------------ *)
(** ** Record store: [findOne], document validation, unique indexes *)

(** [Model.findOne(filter)]: first match in natural order, with its position. *)
Fixpoint find_one_go (p : registration -> bool) (i : nat) (l : list registration)
  : option (nat * registration) :=
  match l with
  | [] => None
  | r :: t => if p r then Some (i, r) else find_one_go p (S i) t
  end.

Definition find_one (p : registration -> bool) (l : list registration) :=
  find_one_go p 0 l.

Definition findOne (p : registration -> bool) : M (option (nat * registration)) :=
  fun w => (w, inr (find_one p (store w))).

(** Mongoose [required] on a String path: [v.length > 0]; [min]/[max] on
    [teamSize]. *)
Definition schema_valid (r : registration) : bool :=
  forallb notEmpty
    [registrationId r; event r; teamName r; teamLeaderName r; email r; mobile r;
     gender r; college r; course r; year r; rollno r; aadhar r;
     aadharImage r; aadharImageHash r; collegeId r; collegeIdHash r]
  && (1 <=? teamSize r)%Z && (teamSize r <=? 4)%Z.

(** The unique indexes of [registrationSchema] with their key patterns:
    [registrationId], [teamName], [email], [mobile], [aadhar] (field
    options and [schema.index]) and the compound [{event, teamName}].
    When several are violated MongoDB reports one; the model reports the
    first in declaration order. *)
Definition unique_indexes : list (list string * (registration -> registration -> bool)) :=
  [ (["registrationId"], fun a b => String.eqb (registrationId a) (registrationId b));
    (["teamName"], fun a b => String.eqb (teamName a) (teamName b));
    (["email"], fun a b => String.eqb (email a) (email b));
    (["mobile"], fun a b => String.eqb (mobile a) (mobile b));
    (["aadhar"], fun a b => String.eqb (aadhar a) (aadhar b));
    (["event"; "teamName"], fun a b => String.eqb (event a) (event b)
                                       && String.eqb (teamName a) (teamName b)) ].

Definition violated_index (r : registration) (l : list registration) : option (list string) :=
  option_map fst (List.find (fun ix => existsb (snd ix r) l) unique_indexes).

(** [new Registration(doc).save()]: validation, then an atomic insert that
    fails with E11000 on a unique-index violation. *)
Definition save_new (r : registration) : M unit :=
  fun w =>
    if negb (schema_valid r) then (w, inl (JsError "Registration validation failed"))
    else match violated_index r (store w) with
         | Some kp => (w, inl (MongoServerError 11000 kp))
         | None => (mkWorld (store w ++ [r]) (outbox w) (sheet w), inr tt)
         end.

(** [doc.save()] on a document loaded at position [i]: in-place update. *)
Definition save_existing (i : nat) (r : registration) : M unit :=
  fun w => (mkWorld (<[i := r]> (store w)) (outbox w) (sheet w), inr tt).

(* ------------------------------------------------------------------ *)
(** ** Sample instances for concrete runs

    A stand-in digest with the shape of an MD5 hex digest (32 characters,
    determined by the bytes), a stand-in [isEmail], short provider domain
    lists, and sample submissions. *)

Fixpoint hex_pad (n : nat) (bs : list Byte.byte) : string :=
  match n with
  | O => EmptyString
  | S n' =>
      match bs with
      | [] => String "0" (hex_pad n' [])
      | b :: t => String (ascii_of_byte b) (hex_pad n' t)
      end
  end.

Definition sample_md5_hex (bs : list Byte.byte) : string := hex_pad 32 bs.
Definition sample_isEmail (s : string) : bool := contains "@" s.
Definition sample_outlook : list string := ["hotmail.com"; "outlook.com"].
Definition sample_yahoo : list string := ["yahoo.com"].
Definition sample_yandex : list string := ["yandex.ru"].

Definition sample_png (name : string) (bs : list Byte.byte) : upload :=
  mkUpload name "image/png" bs.

Definition sample_request (rid team mail_addr phone aadhar_no : string)
    (aimg cimg : upload) : request :=
  mkRequest rid "Hackathon" team "Asha Verma" mail_addr phone "Female" "HIET"
            "BTech" "2" "101" aadhar_no "3" (Some aimg) (Some cimg).

(** Both files are stored within the same millisecond. *)
Definition sample_env : env := mkEnv 17 17 17 true.
Definition sample_env_smtp_down : env := mkEnv 18 18 18 false.

(** The first accepted submission. *)
Definition rq_first : request :=
  sample_request "HTF001" "Alpha" "asha@example.com" "9876543210" "123456789012"
    (sample_png "aadhar.png" [Byte.x61; Byte.x62]) (sample_png "college.png" [Byte.x63; Byte.x64]).

(** Same aadhar-image bytes as [rq_first] under another file name. *)
Definition rq_same_aadhar_image : request :=
  sample_request "HTF002" "Beta" "ravi@example.com" "9876543211" "123456789013"
    (sample_png "copy.png" [Byte.x61; Byte.x62]) (sample_png "id2.png" [Byte.x65; Byte.x66]).

(** The e-mail of [rq_first] with other letter case. *)
Definition rq_email_case : request :=
  sample_request "HTF002" "Beta" "Asha@Example.COM" "9876543211" "123456789013"
    (sample_png "a2.png" [Byte.x67]) (sample_png "c2.png" [Byte.x68]).

(** Its aadhar image has the bytes of [rq_first]'s college ID. *)
Definition rq_cross_document : request :=
  sample_request "HTF002" "Beta" "ravi@example.com" "9876543211" "123456789013"
    (sample_png "a2.png" [Byte.x63; Byte.x64]) (sample_png "c2.png" [Byte.x65; Byte.x66]).

(** A twelve-character aadhar with no digit. *)
Definition rq_letters_aadhar : request :=
  sample_request "HTF001" "Alpha" "asha@example.com" "9876543210" "abcdefghijkl"
    (sample_png "aadhar.png" [Byte.x61; Byte.x62]) (sample_png "college.png" [Byte.x63; Byte.x64]).

(** The number of [rq_first] with the +91 prefix. *)
Definition rq_prefixed_mobile : request :=
  sample_request "HTF002" "Beta" "ravi@example.com" "+919876543210" "123456789013"
    (sample_png "a2.png" [Byte.x67]) (sample_png "c2.png" [Byte.x68]).

(** A submission that lacks its college ID. *)
Definition rq_missing_college : request :=
  mkRequest "HTF003" "Hackathon" "Gamma" "Neha Rao" "neha@example.com" "9876543212" "Female"
            "HIET" "BTech" "2" "103" "123456789014" "3"
            (Some (sample_png "a3.png" [Byte.x69])) None.

(** Team "Alpha" again (with surrounding blanks) for the same event, with new documents. *)
Definition rq_same_team : request :=
  sample_request "HTF002" " Alpha " "ravi@example.com" "9876543211" "123456789013"
    (sample_png "a2.png" [Byte.x67]) (sample_png "c2.png" [Byte.x68]).

(** The aadhar-image bytes of [rq_first] again, with both files named
    "scan.png". *)
Definition rq_same_name_files : request :=
  sample_request "HTF002" "Beta" "ravi@example.com" "9876543211" "123456789013"
    (sample_png "scan.png" [Byte.x61; Byte.x62]) (sample_png "scan.png" [Byte.x65; Byte.x66]).

(** Stand-ins for part_001: a digest with the shape of a SHA-256 hex digest
    and the message of a refused mail. *)
Definition sample_sha256_hex (bs : list Byte.byte) : string := hex_pad 64 bs.
Definition sample_sendMail_error : string := "Invalid login: 535 Authentication failed".

(* ------------------------------------------------------------------ *)
(** ** The server (src/BACKEND/server.js) *)

Section Server.
(** [crypto.createHash('md5') ... digest('hex')] over the file's bytes. *)
Variable md5_hex : list Byte.byte -> string.
(** validator.js [isEmail]. *)
Variable isEmail : string -> bool.
Variables outlookdotcom_domains yahoo_domains yandex_domains : list string.

(** [body('email').isEmail().normalizeEmail()]: the sanitized value is
    written back to [req.body]; the library's [false] is cast to the
    string "false" by Mongoose. *)
Definition normalized_email (s : string) : string :=
  match normalizeEmail outlookdotcom_domains yahoo_domains yandex_domains s with
  | Some s' => s'
  | None => "false"
  end.

(** [upload]: multer's [fileFilter] and [limits.fileSize] on each part. *)
Definition file_error (f : upload) : option string :=
  let ext_ok := fileTypes_test (toLowerCase (extname (originalname f))) in
  let mime_ok := fileTypes_test (mimetype f) in
  if negb (ext_ok && mime_ok) then Some "Only images (jpeg, jpg, png) and PDFs are allowed"
  else if (300000 <? N.of_nat (length (content f)))%N then Some "File size must be 300KB or less"
  else None.

Definition opt_file_error (f : option upload) : option string :=
  match f with Some u => file_error u | None => None end.

Definition multer_error (rq : request) : option string :=
  match opt_file_error (req_aadharImage rq) with
  | Some m => Some m
  | None => opt_file_error (req_collegeId rq)
  end.

Definition check (ok : bool) (field msg : string) : list (string * string) :=
  if ok then [] else [(field, msg)].

(** The validation chain of [app.post('/api/register')], in order. *)
Definition validation_errors (rq : request) : list (string * string) :=
  check (isEmail (req_email rq)) "email" "Invalid email format" ++
  check (isMobilePhone_en_IN (req_mobile rq)) "mobile" "Invalid mobile number" ++
  check (notEmpty (trim (req_teamName rq))) "teamName" "Team name is required" ++
  check (notEmpty (trim (req_teamLeaderName rq))) "teamLeaderName" "Team leader name is required" ++
  check (isLength_12 (req_aadhar rq)) "aadhar" "Aadhar must be 12 digits" ++
  check (isInt_1_4 (req_teamSize rq)) "teamSize" "Team size must be between 1 and 4" ++
  check (notEmpty (req_registrationId rq)) "registrationId" "Registration ID is required" ++
  check (notEmpty (req_event rq)) "event" "Event is required" ++
  check (notEmpty (req_gender rq)) "gender" "Gender is required" ++
  check (notEmpty (req_college rq)) "college" "College is required" ++
  check (notEmpty (req_course rq)) "course" "Course is required" ++
  check (notEmpty (req_year rq)) "year" "Year is required" ++
  check (notEmpty (req_rollno rq)) "rollno" "Roll number is required".

(** [req.body] after the sanitizers ([normalizeEmail], [trim]). *)
Definition sanitize (rq : request) : request :=
  {| req_registrationId := req_registrationId rq; req_event := req_event rq;
     req_teamName := trim (req_teamName rq);
     req_teamLeaderName := trim (req_teamLeaderName rq);
     req_email := normalized_email (req_email rq); req_mobile := req_mobile rq;
     req_gender := req_gender rq; req_college := req_college rq;
     req_course := req_course rq; req_year := req_year rq;
     req_rollno := req_rollno rq; req_aadhar := req_aadhar rq;
     req_teamSize := req_teamSize rq;
     req_aadharImage := req_aadharImage rq; req_collegeId := req_collegeId rq |}.

(** multer's disk storage: [filename] gives
    [uploads/<Date.now()>-<originalname>], with [Date.now()] read for each
    file. *)
Definition disk_path (stamp : nat) (f : upload) : string :=
  "uploads/" +:+ pretty stamp +:+ "-" +:+ originalname f.

(** The files the request writes, in the order multer writes them: the
    parts in the order the client sends them, which Registration.jsx does
    by appending [aadharImage] before [collegeId]. *)
Definition uploads_written (e : env) (af cf : upload) : list (string * list Byte.byte) :=
  [(disk_path (aadharImage_now e) af, content af); (disk_path (collegeId_now e) cf, content cf)].

(** Reading a path after those writes: a later write to the same path
    replaces the file.  Both paths read by the handler were just written. *)
Definition read_file (writes : list (string * list Byte.byte)) (filePath : string)
    : list Byte.byte :=
  fold_left (fun acc '(q, bs) => if String.eqb filePath q then bs else acc) writes [].

(** [calculateFileHash(filePath)]: MD5 of the file read back from disk. *)
Definition calculateFileHash (writes : list (string * list Byte.byte)) (filePath : string)
    : M string :=
  ret (md5_hex (read_file writes filePath)).

(** nodemailer connects and logs in first; it then refuses a mail whose
    [to] is [false] (an address [normalizeEmail] rejected, "false" here)
    with "No recipients defined".  Any error is rethrown with one message. *)
Definition recipient_defined (to : string) : bool := negb (String.eqb to "false").

Definition sendConfirmationEmail (e : env) (to rid : string) : M unit :=
  let! w := get_world in
  if smtp_ok e && recipient_defined to
  then put_world (mkWorld (store w) (outbox w ++ [mkMail to rid]) (sheet w))
  else throw (JsError "Failed to send confirmation email").

(** The header row of a new file ([worksheet.columns]). *)
Definition excel_header : list string :=
  ["Registration ID"; "Event"; "Team Name"; "Team Leader"; "Email"; "Mobile";
   "Gender"; "College"; "Course"; "Year"; "Roll No"; "Aadhar"; "Team Size";
   "Aadhar Image"; "College ID Image"].

(** The cells [addRow({...})] writes through the column keys. *)
Definition excel_row (r : registration) : list string :=
  [registrationId r; event r; teamName r; teamLeaderName r; email r; mobile r;
   gender r; college r; course r; year r; rollno r; aadhar r;
   pretty (Z.to_N (teamSize r)); ""; ""].

(** The rows of exports/registrations.xlsx after the [forEach] loop, from
    its rows before (none: the file does not exist).  [getRow(index + 2)]
    creates row 2 before the first [addRow], so the records start at row 3
    and row 2 stays empty.  A new worksheet has keyed columns; a workbook
    read back from the file has no column keys, so [addRow] of an object
    writes an empty row; [spliceRows(2, rowCount - 1)] first leaves only
    the header row. *)
Definition written_sheet (old : list (list string)) (registrations : list registration)
    : list (list string) :=
  match old with
  | [] => excel_header :: [] :: map excel_row registrations
  | header :: _ => header :: [] :: map (fun _ => []) registrations
  end.

(** [generateExcel]: its own errors are caught and logged. *)
Definition generateExcel : M unit :=
  let! w := get_world in
  let registrations := store w in
  if (length registrations =? 0)%nat then ret tt
  else put_world (mkWorld registrations (outbox w) (written_sheet (sheet w) registrations)).

Definition teamSize_number (s : string) : Z :=
  match parse_int s with Some z => z | None => 0%Z end.

Definition is_found {A} (o : option A) : bool :=
  match o with Some _ => true | None => false end.

Definition bad_request (msg : string) : M response := ret (Resp 400 (JError msg)).

(** [new Registration({...})]: the document built from [req.body], the
    stored file paths and their hashes. *)
Definition new_registration (e : env) (b : request)
    (aadharImage' aadharImageHash' collegeId' collegeIdHash' : string) : registration :=
  {| registrationId := req_registrationId b; event := req_event b;
     teamName := req_teamName b; teamLeaderName := req_teamLeaderName b;
     email := req_email b; mobile := req_mobile b; gender := req_gender b;
     college := req_college b; course := req_course b; year := req_year b;
     rollno := req_rollno b; aadhar := req_aadhar b;
     teamSize := teamSize_number (req_teamSize b);
     aadharImage := aadharImage'; aadharImageHash := aadharImageHash';
     collegeId := collegeId'; collegeIdHash := collegeIdHash';
     createdAt := now e; isConfirmed := false |}.

(** The body of the [try] block, on the sanitized [req.body]. *)
Definition register_try (e : env) (b : request) : M response :=
  match req_aadharImage b, req_collegeId b with
  | Some af, Some cf =>
    let disk := uploads_written e af cf in
    let aadharImage' := disk_path (aadharImage_now e) af in
    let collegeId' := disk_path (collegeId_now e) cf in
    let! aadharImageHash' := calculateFileHash disk aadharImage' in
    let! collegeIdHash' := calculateFileHash disk collegeId' in
    let! existingAadhar := findOne (fun r => String.eqb (aadharImageHash r) aadharImageHash') in
    let! existingCollegeId := findOne (fun r => String.eqb (collegeIdHash r) collegeIdHash') in
    if is_found existingAadhar then bad_request "This Aadhar card image has already been uploaded"
    else if is_found existingCollegeId then bad_request "This College ID image has already been uploaded"
    else
    let! existingTeamInEvent :=
      findOne (fun r => String.eqb (event r) (req_event b) && String.eqb (teamName r) (req_teamName b)) in
    if is_found existingTeamInEvent then
      bad_request ("Team '" +:+ req_teamName b +:+ "' is already registered for '" +:+ req_event b +:+ "'")
    else
    let registration' :=
      new_registration e b aadharImage' aadharImageHash' collegeId' collegeIdHash' in
    let! _ := save_new registration' in
    let! _ := sendConfirmationEmail e (req_email b) (req_registrationId b) in
    let! _ := generateExcel in
    ret (Resp 200 (JRegistered "Registration successful. Please check your email to confirm."
                     (req_registrationId b) registration'))
  | _, _ => bad_request "Both Aadhar card and College ID images are required"
  end.

(** The [catch] block. *)
Definition register_catch (ex : exn) : response :=
  match ex with
  | MongoServerError 11000 (field :: _) => Resp 400 (JError (field +:+ " already exists"))
  | MongoServerError _ _ => Resp 500 (JError "An unexpected error occurred during registration")
  | JsError msg => Resp 500 (JError msg)
  end.

(** [app.post('/api/register', upload, validators, handler)]. *)
Definition register (e : env) (rq : request) (w : world) : world * response :=
  match multer_error rq with
  | Some msg => (w, Resp 400 (JError msg))
  | None =>
    match validation_errors rq with
    | _ :: _ as errs => (w, Resp 400 (JErrors errs))
    | [] =>
      match register_try e (sanitize rq) w with
      | (w', inl ex) => (w', register_catch ex)
      | (w', inr res) => (w', res)
      end
    end
  end.

(** [app.get('/api/confirm/:registrationId')]. *)
Definition confirm_try (rid : string) : M response :=
  let! found := findOne (fun r => String.eqb (registrationId r) rid) in
  match found with
  | None => ret (Resp 404 (JError "Registration not found"))
  | Some (i, registration') =>
    if isConfirmed registration' then ret (Resp 400 (JError "Email already confirmed"))
    else
      let! _ := save_existing i (set_confirmed registration') in
      ret (Resp 200 (JMessage "Email confirmed successfully"))
  end.

Definition confirm (rid : string) (w : world) : world * response :=
  match confirm_try rid w with
  | (w', inl (JsError msg)) => (w', Resp 500 (JError msg))
  | (w', inl _) => (w', Resp 500 (JError "An unexpected error occurred during confirmation"))
  | (w', inr res) => (w', res)
  end.

(** [app.get('/api/export-excel')] of the in-memory variant: a read-only
    projection of [Registration.find()] onto thirteen columns. *)
Definition export_row (r : registration) : list string :=
  [registrationId r; event r; teamName r; teamLeaderName r; email r; mobile r;
   gender r; college r; course r; year r; rollno r; aadhar r;
   pretty (Z.to_N (teamSize r))].

Definition export_excel (w : world) : world * response :=
  match store w with
  | [] => (w, Resp 404 (JError "No registrations found to export"))
  | regs => (w, Resp 200 (JSheet (map export_row regs)))
  end.

(** The operations of the core, as a step relation on the world. *)
Inductive step : world -> world -> Prop :=
  | step_register (e : env) (rq : request) (w : world) :
      step w (fst (register e rq w))
  | step_confirm (rid : string) (w : world) :
      step w (fst (confirm rid w))
  | step_export (w : world) :
      step w (fst (export_excel w)).

Definition empty_world : world := mkWorld [] [] [].

Inductive reachable : world -> Prop :=
  | reachable_empty : reachable empty_world
  | reachable_step (w w' : world) : reachable w -> step w w' -> reachable w'.

(* ------------------------------------------------------------------ *)
(** ** The in-memory variant (src/unnamed/part_001)

    Same routes and checks, with these differences: files are kept in
    memory and hashed with SHA-256, the file filter tests the mimetype
    only, the mobile rule is [/^[6-9][0-9]{9}$/], the schema has no
    [aadharImage]/[collegeId] paths and no compound index, every failure
    of the handler body is thrown and answered with 400, and no Excel
    file is written. *)

Section Part001.

(** [crypto.createHash('sha256') ... digest('hex')] over the buffer. *)
Variable sha256_hex : list Byte.byte -> string.
(** The message of the error [transporter.sendMail] rejects with. *)
Variable sendMail_error : string.

(** [String.prototype.toUpperCase] on one ASCII character. *)
Definition upper_char (c : ascii) : ascii :=
  let n := nat_of_ascii c in
  if (97 <=? n)%nat && (n <=? 122)%nat then ascii_of_nat (n - 32) else c.

(** [field.charAt(0).toUpperCase() + field.slice(1)] *)
Definition capitalize (s : string) : string :=
  match s with
  | EmptyString => EmptyString
  | String c t => String (upper_char c) t
  end.

(** multer's [fileFilter] (mimetype only) and [limits.fileSize]. *)
Definition file_error_001 (f : upload) : option string :=
  if negb (fileTypes_test (mimetype f)) then Some "Only images (jpeg, jpg, png) and PDFs are allowed"
  else if (300000 <? N.of_nat (length (content f)))%N then Some "File size must be 300KB or less"
  else None.

Definition multer_error_001 (rq : request) : option string :=
  match req_aadharImage rq with
  | Some u => match file_error_001 u with
              | Some m => Some m
              | None => match req_collegeId rq with Some v => file_error_001 v | None => None end
              end
  | None => match req_collegeId rq with Some v => file_error_001 v | None => None end
  end.

Definition validation_errors_001 (rq : request) : list (string * string) :=
  check (isEmail (req_email rq)) "email" "Invalid email format" ++
  check (mobile_regex (req_mobile rq)) "mobile" "Valid 10-digit mobile number starting with 6-9 is required" ++
  check (notEmpty (trim (req_teamName rq))) "teamName" "Team name is required" ++
  check (notEmpty (trim (req_teamLeaderName rq))) "teamLeaderName" "Team leader name is required" ++
  check (isLength_12 (req_aadhar rq)) "aadhar" "Aadhar must be 12 digits" ++
  check (isInt_1_4 (req_teamSize rq)) "teamSize" "Team size must be between 1 and 4" ++
  check (notEmpty (req_registrationId rq)) "registrationId" "Registration ID is required" ++
  check (notEmpty (req_event rq)) "event" "Event is required" ++
  check (notEmpty (req_gender rq)) "gender" "Gender is required" ++
  check (notEmpty (req_college rq)) "college" "College is required" ++
  check (notEmpty (req_course rq)) "course" "Course is required" ++
  check (notEmpty (req_year rq)) "year" "Year is required" ++
  check (notEmpty (req_rollno rq)) "rollno" "Roll number is required".

(** [required] paths and [teamSize] bounds of part_001's schema. *)
Definition schema_valid_001 (r : registration) : bool :=
  forallb notEmpty
    [registrationId r; event r; teamName r; teamLeaderName r; email r; mobile r;
     gender r; college r; course r; year r; rollno r; aadhar r;
     aadharImageHash r; collegeIdHash r]
  && (1 <=? teamSize r)%Z && (teamSize r <=? 4)%Z.

(** The unique fields of part_001's schema (no compound index). *)
Definition unique_indexes_001 : list (list string * (registration -> registration -> bool)) :=
  [ (["registrationId"], fun a b => String.eqb (registrationId a) (registrationId b));
    (["teamName"], fun a b => String.eqb (teamName a) (teamName b));
    (["email"], fun a b => String.eqb (email a) (email b));
    (["mobile"], fun a b => String.eqb (mobile a) (mobile b));
    (["aadhar"], fun a b => String.eqb (aadhar a) (aadhar b)) ].

Definition violated_index_001 (r : registration) (l : list registration) : option (list string) :=
  option_map fst (List.find (fun ix => existsb (snd ix r) l) unique_indexes_001).

Definition save_new_001 (r : registration) : M unit :=
  fun w =>
    if negb (schema_valid_001 r) then (w, inl (JsError "Registration validation failed"))
    else match violated_index_001 r (store w) with
         | Some kp => (w, inl (MongoServerError 11000 kp))
         | None => (mkWorld (store w ++ [r]) (outbox w) (sheet w), inr tt)
         end.

Definition calculateFileHash_001 (f : upload) : M string := ret (sha256_hex (content f)).

(** No try/catch around [sendMail]: its error reaches the handler.  The
    transport's own error comes first; with the transport up, a [false]
    recipient is refused with "No recipients defined". *)
Definition sendConfirmationEmail_001 (e : env) (to rid : string) : M unit :=
  let! w := get_world in
  if negb (smtp_ok e) then throw (JsError sendMail_error)
  else if negb (recipient_defined to) then throw (JsError "No recipients defined")
  else put_world (mkWorld (store w) (outbox w ++ [mkMail to rid]) (sheet w)).

(** The body of the [try] block; the document has no file paths. *)
Definition register_try_001 (e : env) (b : request) : M response :=
  match req_aadharImage b, req_collegeId b with
  | Some af, Some cf =>
    let! aadharImageHash' := calculateFileHash_001 af in
    let! collegeIdHash' := calculateFileHash_001 cf in
    let! existingAadhar := findOne (fun r => String.eqb (aadharImageHash r) aadharImageHash') in
    let! existingCollegeId := findOne (fun r => String.eqb (collegeIdHash r) collegeIdHash') in
    if is_found existingAadhar || is_found existingCollegeId then
      throw (JsError "This Aadhar card or College ID image has already been uploaded")
    else
    let! existingTeamInEvent :=
      findOne (fun r => String.eqb (event r) (req_event b) && String.eqb (teamName r) (req_teamName b)) in
    if is_found existingTeamInEvent then
      throw (JsError ("Team '" +:+ req_teamName b +:+ "' is already registered for '" +:+ req_event b +:+ "'"))
    else
    let registration' := new_registration e b "" aadharImageHash' "" collegeIdHash' in
    let! _ := save_new_001 registration' in
    let! _ := sendConfirmationEmail_001 e (req_email b) (req_registrationId b) in
    ret (Resp 200 (JRegistered "Registration successful. Please check your email to confirm."
                     (req_registrationId b) registration'))
  | _, _ => throw (JsError "Both Aadhar card and College ID images are required")
  end.

(** The [catch] block: every error is answered with 400.  [save_new_001]
    raises E11000 with a one-field key pattern only; other Mongo errors are
    not raised by this model and get the default message. *)
Definition register_catch_001 (ex : exn) : response :=
  match ex with
  | MongoServerError 11000 (field :: _) =>
      Resp 400 (JError (capitalize field +:+ " already exists"))
  | MongoServerError _ _ => Resp 400 (JError "An unexpected error occurred during registration")
  | JsError msg =>
      Resp 400 (JError (if is_empty_str msg
                        then "An unexpected error occurred during registration" else msg))
  end.

Definition register_001 (e : env) (rq : request) (w : world) : world * response :=
  match multer_error_001 rq with
  | Some msg => (w, Resp 400 (JError msg))
  | None =>
    match validation_errors_001 rq with
    | _ :: _ as errs => (w, Resp 400 (JErrors errs))
    | [] =>
      match register_try_001 e (sanitize rq) w with
      | (w', inl ex) => (w', register_catch_001 ex)
      | (w', inr res) => (w', res)
      end
    end
  end.

(** A request whose uploaded files carry other names (same type and bytes). *)
Definition rename_upload (n : string) (f : upload) : upload :=
  mkUpload n (mimetype f) (content f).

Definition rename_files (n1 n2 : string) (rq : request) : request :=
  {| req_registrationId := req_registrationId rq; req_event := req_event rq;
     req_teamName := req_teamName rq; req_teamLeaderName := req_teamLeaderName rq;
     req_email := req_email rq; req_mobile := req_mobile rq;
     req_gender := req_gender rq; req_college := req_college rq;
     req_course := req_course rq; req_year := req_year rq;
     req_rollno := req_rollno rq; req_aadhar := req_aadhar rq;
     req_teamSize := req_teamSize rq;
     req_aadharImage := option_map (rename_upload n1) (req_aadharImage rq);
     req_collegeId := option_map (rename_upload n2) (req_collegeId rq) |}.

(** A character test used to state properties of [split]-based code. *)
Fixpoint has_char (c : ascii) (s : string) : bool :=
  match s with
  | EmptyString => false
  | String x t => Ascii.eqb x c || has_char c t
  end.

End Part001.

(* ------------------------------------------------------------------ *)
(** ** Store invariants *)

(** The five single-field unique indexes, for every two records. *)
Definition pairwise_distinct (l : list registration) : Prop :=
  forall i j a b, l !! i = Some a -> l !! j = Some b -> i <> j ->
    registrationId a <> registrationId b /\ teamName a <> teamName b /\
    email a <> email b /\ mobile a <> mobile b /\ aadhar a <> aadhar b.

(** Two versions of a record that agree on every field but [isConfirmed]. *)
Definition same_except_confirmed (a b : registration) : Prop :=
  registrationId a = registrationId b /\ event a = event b /\
  teamName a = teamName b /\ teamLeaderName a = teamLeaderName b /\
  email a = email b /\ mobile a = mobile b /\ gender a = gender b /\
  college a = college b /\ course a = course b /\ year a = year b /\
  rollno a = rollno b /\ aadhar a = aadhar b /\ teamSize a = teamSize b /\
  aadharImage a = aadharImage b /\ aadharImageHash a = aadharImageHash b /\
  collegeId a = collegeId b /\ collegeIdHash a = collegeIdHash b /\
  createdAt a = createdAt b.

(** The digests [calculateFileHash] computes for the two parts of a
    request: those of the files at their stored paths. *)
Definition aadhar_digest (e : env) (af cf : upload) : string :=
  md5_hex (read_file (uploads_written e af cf) (disk_path (aadharImage_now e) af)).

Definition collegeId_digest (e : env) (af cf : upload) : string :=
  md5_hex (read_file (uploads_written e af cf) (disk_path (collegeId_now e) cf)).

(** A submission that collides with a stored record, on the values the
    handler compares ([req.body] after sanitization, the digests of the
    stored files): a document digest in its own column, the (event,
    teamName) pair, or one of the five uniquely indexed fields. *)
Definition duplicate_conflict (e : env) (rq : request) (w : world) : Prop :=
  let b := sanitize rq in
  (exists af cf r, req_aadharImage b = Some af /\ req_collegeId b = Some cf /\ In r (store w) /\
               aadharImageHash r = aadhar_digest e af cf) \/
  (exists af cf r, req_aadharImage b = Some af /\ req_collegeId b = Some cf /\ In r (store w) /\
               collegeIdHash r = collegeId_digest e af cf) \/
  (exists r, In r (store w) /\ event r = req_event b /\ teamName r = req_teamName b) \/
  (exists r, In r (store w) /\
     (registrationId r = req_registrationId b \/ teamName r = req_teamName b \/
      email r = req_email b \/ mobile r = req_mobile b \/ aadhar r = req_aadhar b)).

(* ------------------------------------------------------------------ *)
(** ** Lemmas on [findOne] *)

Lemma find_one_go_Some (p : registration -> bool) (l : list registration) (k i : nat) r :
  find_one_go p k l = Some (i, r) ->
  k <= i /\ l !! (i - k) = Some r /\ p r = true /\
  (forall j r', j < i - k -> l !! j = Some r' -> p r' = false).
Proof.
  revert k. induction l as [|x l IH]; intros k H; simpl in H; [discriminate|].
  destruct (p x) eqn:Hp.
  - injection H as <- <-. rewrite Nat.sub_diag. split; [lia|]. split; [done|]. split; [done|].
    intros j r' Hj. lia.
  - destruct (IH (S k) H) as (Hk & Hl & Hpr & Hbefore).
    split; [lia|].
    replace (i - k) with (S (i - S k)) by lia. simpl.
    split; [done|]. split; [done|].
    intros [|j] r' Hj Hr'; simpl in Hr'; [by injection Hr' as <-|].
    apply (Hbefore j); [lia|done].
Qed.

Lemma find_one_Some (p : registration -> bool) (l : list registration) i r :
  find_one p l = Some (i, r) ->
  l !! i = Some r /\ p r = true /\
  (forall j r', j < i -> l !! j = Some r' -> p r' = false).
Proof.
  unfold find_one. intros H. apply find_one_go_Some in H.
  rewrite Nat.sub_0_r in H. naive_solver.
Qed.

Lemma find_one_go_None (p : registration -> bool) (l : list registration) k :
  find_one_go p k l = None <-> (forall r, In r l -> p r = false).
Proof.
  revert k. induction l as [|x l IH]; intros k; simpl; [naive_solver|].
  destruct (p x) eqn:Hp; split.
  - discriminate.
  - intros H. rewrite (H x (or_introl eq_refl)) in Hp. discriminate.
  - intros H r [<-|Hr]; [done|]. by apply (proj1 (IH (S k)) H).
  - intros H. apply IH. intros r Hr. apply H. by right.
Qed.

Lemma find_one_None (p : registration -> bool) (l : list registration) :
  find_one p l = None <-> (forall r, In r l -> p r = false).
Proof. apply find_one_go_None. Qed.

Lemma find_one_go_complete (p : registration -> bool) (l : list registration) k i r :
  l !! i = Some r -> p r = true ->
  (forall j r', j < i -> l !! j = Some r' -> p r' = false) ->
  find_one_go p k l = Some (i + k, r).
Proof.
  revert i k. induction l as [|x l IH]; intros i k Hl Hp Hb; [done|]; simpl.
  destruct i as [|i]; simpl in Hl.
  - injection Hl as ->. by rewrite Hp.
  - rewrite (Hb 0 x); [|lia|done].
    replace (S i + k) with (i + S k) by lia. apply IH; [done|done|].
    intros j r' Hj Hr'. apply (Hb (S j)); [lia|done].
Qed.

Lemma find_one_complete (p : registration -> bool) (l : list registration) i r :
  l !! i = Some r -> p r = true ->
  (forall j r', j < i -> l !! j = Some r' -> p r' = false) ->
  find_one p l = Some (i, r).
Proof.
  intros. unfold find_one. replace (Some (i, r)) with (Some (i + 0, r)) by (f_equal; f_equal; lia).
  by apply find_one_go_complete.
Qed.

Lemma find_one_In (p : registration -> bool) (l : list registration) r :
  In r l -> p r = true -> exists i r', find_one p l = Some (i, r').
Proof.
  intros Hin Hp. destruct (find_one p l) as [[i r']|] eqn:E; [by eauto|].
  rewrite find_one_None in E. rewrite (E r Hin) in Hp. discriminate.
Qed.

(* ------------------------------------------------------------------ *)
(** ** Effects of the handlers on the store *)

Ltac unfold_monad :=
  unfold bind, ret, throw, get_world, put_world, findOne, calculateFileHash,
    bad_request, save_new, save_existing, sendConfirmationEmail, generateExcel in *.

Ltac clean_negb :=
  repeat match goal with
  | H : negb _ = false |- _ => apply negb_false_iff in H
  | H : negb _ = true |- _ => apply negb_true_iff in H
  end.

Ltac run_handler :=
  repeat (unfold_monad; case_match; simplify_eq/=); unfold_monad; simplify_eq/=; clean_negb.

(** A registration request either leaves the store as it was or appends
    one unconfirmed record that violates no unique index. *)
Lemma register_try_store (e : env) (b : request) (w w' : world) o :
  register_try e b w = (w', o) ->
  store w' = store w \/
  exists r, store w' = store w ++ [r] /\ violated_index r (store w) = None /\
            schema_valid r = true /\ isConfirmed r = false.
Proof.
  unfold register_try. intros H. run_handler;
    first [by left | right; eexists; split_and!; [reflexivity|..]; done].
Qed.

Lemma register_store (e : env) (rq : request) (w : world) :
  store (fst (register e rq w)) = store w \/
  exists r, store (fst (register e rq w)) = store w ++ [r] /\
            violated_index r (store w) = None /\ isConfirmed r = false.
Proof.
  unfold register. destruct (multer_error rq); [by left|].
  destruct (validation_errors rq); [|by left].
  destruct (register_try e (sanitize rq) w) as [w' o] eqn:E.
  destruct (register_try_store e (sanitize rq) w w' o E) as [H|(r & H & ? & ? & ?)];
    destruct o; simpl; eauto.
Qed.

Lemma confirm_store (rid : string) (w : world) :
  fst (confirm rid w) = w \/
  exists i r, store w !! i = Some r /\ registrationId r = rid /\ isConfirmed r = false /\
    fst (confirm rid w) = mkWorld (<[i := set_confirmed r]> (store w)) (outbox w) (sheet w).
Proof.
  unfold confirm, confirm_try. unfold_monad.
  destruct (find_one _ (store w)) as [[i r]|] eqn:E; simpl; [|by left].
  apply find_one_Some in E as (Hi & Hp & _). apply String.eqb_eq in Hp.
  destruct (isConfirmed r) eqn:Hc; simpl; [by left|].
  right. eauto 10.
Qed.

Lemma existsb_false_In {A} (f : A -> bool) (l : list A) a :
  existsb f l = false -> In a l -> f a = false.
Proof.
  intros H Ha. destruct (f a) eqn:E; [|done].
  assert (existsb f l = true) by (apply existsb_exists; eauto). congruence.
Qed.

Lemma violated_index_None (r : registration) (l : list registration) :
  violated_index r l = None ->
  forall a, In a l ->
    registrationId r <> registrationId a /\ teamName r <> teamName a /\
    email r <> email a /\ mobile r <> mobile a /\ aadhar r <> aadhar a /\
    ~ (event r = event a /\ teamName r = teamName a).
Proof.
  unfold violated_index, unique_indexes. simpl. intros H a Ha.
  repeat (case_match; simplify_eq/=).
  repeat match goal with
  | E : existsb _ l = false |- _ => pose proof (existsb_false_In _ _ a E Ha); clear E
  end.
  cbv beta in *.
  repeat match goal with
  | E : String.eqb _ _ = false |- _ => apply String.eqb_neq in E
  | E : _ && _ = false |- _ => apply andb_false_iff in E; destruct E as [E|E]
  end.
  all: naive_solver.
Qed.

Lemma set_confirmed_same (r : registration) : same_except_confirmed r (set_confirmed r).
Proof. unfold same_except_confirmed. simpl. naive_solver. Qed.

Lemma same_except_confirmed_refl (r : registration) : same_except_confirmed r r.
Proof. unfold same_except_confirmed. naive_solver. Qed.

Lemma step_cases (w w' : world) :
  step w w' ->
  store w' = store w \/
  (exists r, store w' = store w ++ [r] /\ violated_index r (store w) = None /\
             isConfirmed r = false) \/
  (exists i r, store w !! i = Some r /\ isConfirmed r = false /\
               store w' = <[i := set_confirmed r]> (store w)).
Proof.
  intros Hs. destruct Hs as [e rq w0|rid w0|w0].
  - destruct (register_store e rq w0) as [|]; eauto.
  - destruct (confirm_store rid w0) as [->|(i & r & ? & ? & ? & ->)]; eauto 10.
  - unfold export_excel. left. by case_match.
Qed.

Lemma step_preserves_distinct (w w' : world) :
  step w w' -> pairwise_distinct (store w) -> pairwise_distinct (store w').
Proof.
  intros Hs Hd. destruct (step_cases w w' Hs) as [->|[(r & -> & Hv & _)|(k & r & Hk & _ & ->)]];
    [done| |].
  - intros i j a b Ha Hb Hij.
    apply lookup_snoc_Some in Ha as [[Hi Ha]|[-> <-]];
    apply lookup_snoc_Some in Hb as [[Hj Hb]|[-> <-]].
    + by apply (Hd i j).
    + destruct (violated_index_None r _ Hv a) as (? & ? & ? & ? & ? & _);
        [by eapply list_elem_of_In, list_elem_of_lookup_2|]. naive_solver.
    + destruct (violated_index_None r _ Hv b) as (? & ? & ? & ? & ? & _);
        [by eapply list_elem_of_In, list_elem_of_lookup_2|]. naive_solver.
    + done.
  - intros i j a b Ha Hb Hij.
    apply list_lookup_insert_Some in Ha as [(<- & <- & _)|(_ & Ha)];
    apply list_lookup_insert_Some in Hb as [(<- & <- & _)|(_ & Hb)]; simpl.
    + done.
    + by apply (Hd k j).
    + by apply (Hd i k).
    + by apply (Hd i j).
Qed.

Lemma reachable_distinct (w : world) : reachable w -> pairwise_distinct (store w).
Proof.
  induction 1 as [|w w' _ IH Hs].
  - intros i j a b Ha. done.
  - by apply (step_preserves_distinct w w').
Qed.

(** The paths through the [try] block: a rejection that leaves the world
    as it was (a 400 when a response is returned), or a save after every
    duplicate check passed, followed by the mail. *)
Lemma register_try_progress (e : env) (b : request) (w w' : world) o :
  register_try e b w = (w', o) ->
  (w' = w /\ forall res, o = inr res -> status res = 400) \/
  (exists af cf,
     req_aadharImage b = Some af /\ req_collegeId b = Some cf /\
     find_one (fun r => String.eqb (aadharImageHash r) (aadhar_digest e af cf)) (store w) = None /\
     find_one (fun r => String.eqb (collegeIdHash r) (collegeId_digest e af cf)) (store w) = None /\
     find_one (fun r => String.eqb (event r) (req_event b) && String.eqb (teamName r) (req_teamName b))
       (store w) = None /\
     let r := new_registration e b (disk_path (aadharImage_now e) af) (aadhar_digest e af cf)
                (disk_path (collegeId_now e) cf) (collegeId_digest e af cf) in
     violated_index r (store w) = None /\ schema_valid r = true /\
     store w' = store w ++ [r] /\
     ((smtp_ok e && recipient_defined (req_email b) = true /\
       outbox w' = outbox w ++ [mkMail (req_email b) (req_registrationId b)] /\
       o = inr (Resp 200 (JRegistered "Registration successful. Please check your email to confirm."
                                     (req_registrationId b) r))) \/
      (smtp_ok e && recipient_defined (req_email b) = false /\ outbox w' = outbox w /\
       o = inl (JsError "Failed to send confirmation email")))).
Proof.
  unfold register_try. intros H.
  repeat (unfold_monad; case_match; simplify_eq/=); unfold_monad; simplify_eq/=; clean_negb;
    repeat match goal with
    | E : is_found ?x = false |- _ => destruct x eqn:?; [discriminate|clear E]
    end;
    first [ left; split; [done|]; intros ? ?; by simplify_eq/=
          | right; do 2 eexists; split_and!; first [done | by left; split_and! | by right; split_and!] ].
Qed.

Lemma register_catch_status (ex : exn) : status (register_catch ex) <> 200.
Proof. destruct ex; simpl; repeat case_match; simpl; lia. Qed.

Lemma find_one_None_In (p : registration -> bool) (l : list registration) r :
  find_one p l = None -> In r l -> p r = false.
Proof. intros H. by apply find_one_None. Qed.

Lemma register_conflict_rejected (e : env) (rq : request) (w : world) :
  duplicate_conflict e rq w ->
  exists res, register e rq w = (w, res) /\ status res <> 200.
Proof.
  intros Hc. unfold register.
  destruct (multer_error rq); [eexists; split; [done|simpl; lia]|].
  destruct (validation_errors rq); [|eexists; split; [done|simpl; lia]].
  destruct (register_try e (sanitize rq) w) as [w' o] eqn:E.
  destruct (register_try_progress _ _ _ _ _ E)
    as [[-> Hs]|(af & cf & Ha & Hcf & H1 & H2 & H3 & Hv & _)].
  - destruct o as [ex|res]; eexists; split; try done.
    + apply register_catch_status.
    + rewrite (Hs res eq_refl). lia.
  - exfalso. unfold duplicate_conflict in Hc; simpl in *.
    destruct Hc as [(af' & cf' & r & Hf & Hf' & Hr & Hh)|[(af' & cf' & r & Hf & Hf' & Hr & Hh)|
                   [(r & Hr & He & Ht)|(r & Hr & Hu)]]].
    + rewrite Ha in Hf. rewrite Hcf in Hf'. injection Hf as <-. injection Hf' as <-.
      pose proof (find_one_None_In _ _ r H1 Hr) as X. cbv beta in X.
      by rewrite Hh, String.eqb_refl in X.
    + rewrite Ha in Hf. rewrite Hcf in Hf'. injection Hf as <-. injection Hf' as <-.
      pose proof (find_one_None_In _ _ r H2 Hr) as X. cbv beta in X.
      by rewrite Hh, String.eqb_refl in X.
    + pose proof (find_one_None_In _ _ r H3 Hr) as X. simpl in X.
      by rewrite He, Ht, !String.eqb_refl in X.
    + destruct (violated_index_None _ _ Hv r Hr) as (? & ? & ? & ? & ? & _).
      simpl in *. naive_solver.
Qed.

Lemma find_by_id (l : list registration) (i : nat) (r : registration) (rid : string) :
  pairwise_distinct l -> l !! i = Some r -> registrationId r = rid ->
  find_one (fun r => String.eqb (registrationId r) rid) l = Some (i, r).
Proof.
  intros Hd Hi Hr. apply find_one_complete; [done|by apply String.eqb_eq|].
  intros j r' Hj Hr'. apply String.eqb_neq. intros E.
  destruct (Hd j i r' r Hr' Hi) as (Hne & _); [lia|]. congruence.
Qed.

(* ------------------------------------------------------------------ *)
(** ** [toLowerCase] commutes with the steps of [normalizeEmail] *)

Lemma lower_char_idem (c : ascii) : lower_char (lower_char c) = lower_char c.
Proof. destruct c as [[] [] [] [] [] [] [] []]; vm_compute; reflexivity. Qed.

Lemma lower_char_eqb (c : ascii) (sep : ascii) :
  sep = "@"%char \/ sep = "+"%char \/ sep = "-"%char \/ sep = "."%char ->
  Ascii.eqb (lower_char c) sep = Ascii.eqb c sep.
Proof.
  intros Hs. destruct c as [[] [] [] [] [] [] [] []];
    destruct Hs as [-> | [-> | [-> | ->]]]; vm_compute; reflexivity.
Qed.

Lemma toLowerCase_app (a b : string) :
  toLowerCase (a +:+ b) = toLowerCase a +:+ toLowerCase b.
Proof. induction a as [|c a IH]; simpl; [done|by rewrite IH]. Qed.

Lemma toLowerCase_idem (s : string) : toLowerCase (toLowerCase s) = toLowerCase s.
Proof. induction s as [|c s IH]; simpl; [done|by rewrite lower_char_idem, IH]. Qed.

Lemma toLowerCase_is_empty (s : string) : is_empty_str (toLowerCase s) = is_empty_str s.
Proof. by destruct s. Qed.

Lemma split_on_lower (sep : ascii) (s : string) :
  sep = "@"%char \/ sep = "+"%char \/ sep = "-"%char \/ sep = "."%char ->
  split_on sep (toLowerCase s) = map toLowerCase (split_on sep s).
Proof.
  intros Hs. induction s as [|c s IH]; simpl; [done|].
  rewrite IH, (lower_char_eqb c sep Hs).
  destruct (Ascii.eqb c sep); [done|].
  by destruct (split_on sep s).
Qed.

Lemma join_lower (sep : string) (l : list string) :
  toLowerCase sep = sep ->
  join sep (map toLowerCase l) = toLowerCase (join sep l).
Proof.
  intros Hs. unfold join. induction l as [|x l IH]; [done|].
  destruct l as [|y l]; simpl in *; [done|].
  by rewrite IH, !toLowerCase_app, Hs.
Qed.

Lemma last_map_lower (l : list string) :
  List.last (map toLowerCase l) EmptyString = toLowerCase (List.last l EmptyString).
Proof.
  induction l as [|x l IH]; [done|].
  destruct l as [|y l]; [done|]. simpl in *. exact IH.
Qed.

Lemma removelast_map_lower (l : list string) :
  removelast (map toLowerCase l) = map toLowerCase (removelast l).
Proof.
  induction l as [|x l IH]; [done|].
  destruct l as [|y l]; [done|]. simpl in *. by rewrite IH.
Qed.

Lemma head_str_lower (l : list string) :
  head_str (map toLowerCase l) = toLowerCase (head_str l).
Proof. by destruct l. Qed.

Lemma toLowerCase_dots (n : nat) : toLowerCase (dots n) = dots n.
Proof. induction n as [|n IH]; simpl; [done|by rewrite IH]. Qed.

Lemma dots_go_lower (run : nat) (s : string) :
  dots_go run (toLowerCase s) = toLowerCase (dots_go run s).
Proof.
  revert run. induction s as [|c s IH]; intros run; simpl.
  - unfold flush_dots. case_match; [done|]. by rewrite toLowerCase_dots.
  - rewrite (lower_char_eqb c "." (or_intror (or_intror (or_intror eq_refl)))).
    destruct (Ascii.eqb c ".") eqn:E; [apply IH|].
    rewrite toLowerCase_app. simpl. rewrite IH.
    unfold flush_dots. case_match; [done|]. by rewrite toLowerCase_dots.
Qed.

Lemma yahoo_user_lower (u : string) : yahoo_user (toLowerCase u) = toLowerCase (yahoo_user u).
Proof.
  unfold yahoo_user.
  rewrite (split_on_lower "-" u (or_intror (or_intror (or_introl eq_refl)))), length_map.
  case_match; [|apply head_str_lower].
  rewrite removelast_map_lower. by apply join_lower.
Qed.

(** [normalizeEmail] only sees an address up to ASCII letter case. *)
Lemma normalizeEmail_lower (l1 l2 l3 : list string) (s : string) :
  normalizeEmail l1 l2 l3 (toLowerCase s) = normalizeEmail l1 l2 l3 s.
Proof.
  unfold normalizeEmail.
  rewrite (split_on_lower "@" s (or_introl eq_refl)).
  rewrite last_map_lower, removelast_map_lower, join_lower by done.
  rewrite toLowerCase_idem.
  set (d := toLowerCase (List.last (split_on "@" s) EmptyString)).
  set (user := join "@" (removelast (split_on "@" s))).
  rewrite (split_on_lower "+" user (or_intror (or_introl eq_refl))), head_str_lower.
  unfold removeDots. rewrite dots_go_lower, yahoo_user_lower, !toLowerCase_is_empty, !toLowerCase_idem.
  reflexivity.
Qed.

Lemma normalizeEmail_case (l1 l2 l3 : list string) (s1 s2 : string) :
  toLowerCase s1 = toLowerCase s2 -> normalizeEmail l1 l2 l3 s1 = normalizeEmail l1 l2 l3 s2.
Proof. intros H. by rewrite <- (normalizeEmail_lower _ _ _ s1), H, normalizeEmail_lower. Qed.

(* ------------------------------------------------------------------ *)
(** ** Accepted requests *)

Lemma register_accepted (e : env) (rq : request) (w : world) :
  status (snd (register e rq w)) = 200 ->
  multer_error rq = None /\ validation_errors rq = [] /\ smtp_ok e = true /\
  exists af cf, req_aadharImage rq = Some af /\ req_collegeId rq = Some cf /\
    store (fst (register e rq w)) =
      store w ++ [new_registration e (sanitize rq) (disk_path (aadharImage_now e) af)
                    (aadhar_digest e af cf) (disk_path (collegeId_now e) cf)
                    (collegeId_digest e af cf)].
Proof.
  unfold register.
  destruct (multer_error rq); [done|].
  destruct (validation_errors rq); [|done].
  destruct (register_try e (sanitize rq) w) as [w' o] eqn:E.
  destruct (register_try_progress _ _ _ _ _ E)
    as [[-> Hs]|(af & cf & Ha & Hc & _ & _ & _ & _ & _ & Hst & [(Hsm & _ & ->)|(_ & _ & ->)])].
  - destruct o as [ex|res]; simpl.
    + intros H. by destruct (register_catch_status ex).
    + rewrite (Hs res eq_refl). done.
  - intros _. apply andb_prop in Hsm as [Hsm _].
    split_and!; [done|done|done|]. simpl in *. eauto.
  - done.
Qed.

Lemma check_nil (ok : bool) (f m : string) (rest : list (string * string)) :
  check ok f m ++ rest = [] -> ok = true /\ rest = [].
Proof. unfold check. destruct ok; simpl; [done|discriminate]. Qed.

Lemma notEmpty_at (a b : string) : notEmpty (a +:+ "@" +:+ b) = true.
Proof. by destruct a. Qed.

Lemma normalized_email_notEmpty (s : string) : notEmpty (normalized_email s) = true.
Proof.
  unfold normalized_email, normalizeEmail.
  repeat case_match; simplify_eq/=; try done; apply notEmpty_at.
Qed.

Lemma validated_schema (e : env) (rq : request) (sa sc : nat) (af cf : upload)
    (bsa bsc : list Byte.byte) :
  validation_errors rq = [] ->
  (forall bs, String.length (md5_hex bs) = 32) ->
  schema_valid (new_registration e (sanitize rq) (disk_path sa af) (md5_hex bsa)
                                 (disk_path sc cf) (md5_hex bsc)) = true.
Proof.
  intros Hv Hmd5. unfold validation_errors in Hv.
  repeat match goal with
  | H : check _ _ _ ++ _ = [] |- _ => apply check_nil in H as [? H]
  | H : check _ _ _ = [] |- _ => rewrite <- (app_nil_r (check _ _ _)) in H
  end.
  unfold schema_valid, new_registration. simpl.
  rewrite normalized_email_notEmpty.
  repeat match goal with H : ?x = true |- context [?x] => rewrite H end.
  assert (Hh : forall bs, notEmpty (md5_hex bs) = true).
  { intros bs. pose proof (Hmd5 bs). by destruct (md5_hex bs). }
  rewrite !Hh.
  repeat match goal with
  | H : isMobilePhone_en_IN ?m = true |- _ => destruct m; [discriminate|clear H]
  | H : isLength_12 ?m = true |- _ => destruct m; [discriminate|clear H]
  end. simpl.
  match goal with H : isInt_1_4 ?t = true |- _ => unfold isInt_1_4 in H; unfold teamSize_number;
    destruct (parse_int t); [|discriminate] end.
  done.
Qed.

Lemma existsb_all_false {A} (f : A -> bool) (l : list A) :
  (forall a, In a l -> f a = false) -> existsb f l = false.
Proof.
  intros H. apply not_true_iff_false. intros (x & Hx & Hfx)%existsb_exists.
  rewrite (H x Hx) in Hfx. discriminate.
Qed.

Lemma check_In (b : bool) (f m : string) (p : string * string) :
  In p (check b f m) <-> p = (f, m) /\ b = false.
Proof. unfold check. destruct b; simpl; intuition congruence. Qed.

Lemma substring_0_long (n : nat) (s : string) :
  (String.length s <= n)%nat -> substring 0 n s = s.
Proof.
  revert n. induction s as [|c s IH]; intros [|n] Hn; simpl in *; [done|done|lia|].
  rewrite IH; [done|lia].
Qed.

Lemma isMobilePhone_en_IN_plus91 (m : string) :
  mobile_regex m = true -> isMobilePhone_en_IN ("+91" +:+ m) = true.
Proof.
  intros Hm. unfold isMobilePhone_en_IN. simpl.
  change ("" +:+ m) with m. rewrite substring_0_long, Hm; [by destruct m|lia].
Qed.

(* ------------------------------------------------------------------ *)
(** ** The digests of the stored files *)


(** The aadhar file holds the aadhar bytes unless the college ID was
    written to the same path. *)
Lemma aadhar_digest_eq (e : env) (af cf : upload) :
  aadhar_digest e af cf =
    if String.eqb (disk_path (aadharImage_now e) af) (disk_path (collegeId_now e) cf)
    then md5_hex (content cf) else md5_hex (content af).
Proof.
  unfold aadhar_digest, read_file, uploads_written. simpl.
  rewrite String.eqb_refl. by destruct (String.eqb _ _).
Qed.

Lemma aadhar_digest_sep (e : env) (af cf : upload) :
  disk_path (aadharImage_now e) af <> disk_path (collegeId_now e) cf ->
  aadhar_digest e af cf = md5_hex (content af).
Proof. intros H. rewrite aadhar_digest_eq. by apply String.eqb_neq in H as ->. Qed.

Ltac fold_digests :=
  repeat match goal with
  | |- context [md5_hex (read_file (uploads_written ?e ?af ?cf) (disk_path (aadharImage_now ?e) ?af))] =>
      change (md5_hex (read_file (uploads_written e af cf) (disk_path (aadharImage_now e) af)))
        with (aadhar_digest e af cf)
  | |- context [md5_hex (read_file (uploads_written ?e ?af ?cf) (disk_path (collegeId_now ?e) ?cf))] =>
      change (md5_hex (read_file (uploads_written e af cf) (disk_path (collegeId_now e) cf)))
        with (collegeId_digest e af cf)
  end.

(** The register route on a request with both files that passes the upload
    filter and the validators, up to the duplicate-document checks. *)
Lemma register_aadhar_seen (e : env) (rq : request) (w : world) (af cf : upload) (r : registration)
    (Hm : multer_error rq = None) (Hv : validation_errors rq = [])
    (Ha : req_aadharImage rq = Some af) (Hc : req_collegeId rq = Some cf)
    (Hr : In r (store w)) (Hh : aadharImageHash r = aadhar_digest e af cf) :
  register e rq w = (w, Resp 400 (JError "This Aadhar card image has already been uploaded")).
Proof.
  unfold register. rewrite Hm, Hv. unfold register_try. simpl. rewrite Ha, Hc.
  unfold_monad. simpl. fold_digests.
  destruct (find_one_In (fun r => String.eqb (aadharImageHash r) (aadhar_digest e af cf))
              (store w) r Hr) as (i & r' & ->); [cbv beta; by rewrite Hh, String.eqb_refl|].
  reflexivity.
Qed.


(* ------------------------------------------------------------------ *)
(** ** Claims *)

(** C3. The confirmation endpoint's three outcomes, on any store the
    server can reach: an unknown id gives 404 and changes nothing; an
    already confirmed record gives 400 and changes nothing; an unconfirmed
    record is flipped to [isConfirmed = true] in place with a 200, and a
    second call on the same id then gives 400 and changes nothing. *)
Theorem confirm_contract (w : world) (rid : string) (Hw : reachable w) :
  ((forall r, In r (store w) -> registrationId r <> rid) ->
     confirm rid w = (w, Resp 404 (JError "Registration not found"))) /\
  (forall r, In r (store w) -> registrationId r = rid -> isConfirmed r = true ->
     confirm rid w = (w, Resp 400 (JError "Email already confirmed"))) /\
  (forall i r, store w !! i = Some r -> registrationId r = rid -> isConfirmed r = false ->
     confirm rid w = (mkWorld (<[i := set_confirmed r]> (store w)) (outbox w) (sheet w),
                      Resp 200 (JMessage "Email confirmed successfully")) /\
     confirm rid (fst (confirm rid w)) =
       (fst (confirm rid w), Resp 400 (JError "Email already confirmed"))).
Proof.
  pose proof (reachable_distinct w Hw) as Hd.
  split_and!.
  - intros Hnone. unfold confirm, confirm_try. unfold_monad.
    replace (find_one _ (store w)) with (@None (nat * registration)); [done|].
    symmetry. apply find_one_None. intros r Hr. apply String.eqb_neq. by apply Hnone.
  - intros r Hr Hid Hc. apply list_elem_of_In, list_elem_of_lookup_1 in Hr as [i Hi].
    unfold confirm, confirm_try. unfold_monad.
    by rewrite (find_by_id _ i r rid Hd Hi Hid), Hc.
  - intros i r Hi Hid Hc.
    assert (Hfirst : confirm rid w = (mkWorld (<[i := set_confirmed r]> (store w)) (outbox w) (sheet w),
                      Resp 200 (JMessage "Email confirmed successfully"))).
    { unfold confirm, confirm_try. unfold_monad.
      by rewrite (find_by_id _ i r rid Hd Hi Hid), Hc. }
    split; [done|].
    pose proof (reachable_distinct _ (reachable_step _ _ Hw (step_confirm rid w))) as Hd'.
    rewrite Hfirst in Hd' |- *. simpl in Hd' |- *.
    assert (Hi' : <[i := set_confirmed r]> (store w) !! i = Some (set_confirmed r)).
    { apply list_lookup_insert_eq. by eapply lookup_lt_Some. }
    unfold confirm, confirm_try. unfold_monad. simpl.
    by rewrite (find_by_id _ i (set_confirmed r) rid Hd' Hi' Hid).
Qed.

(** C4. A submission that collides with a stored record (document hash,
    (event, teamName) pair, or a uniquely indexed field) is rejected with a
    non-200 status and the world is left exactly as it was: no record
    written, no mail sent. *)
Theorem conflict_rejected_atomically (e : env) (rq : request) (w : world)
    (Hconf : duplicate_conflict e rq w) :
  exists res, register e rq w = (w, res) /\ status res <> 200.
Proof. by apply register_conflict_rejected. Qed.

(** C5. In every reachable store, two distinct records differ in
    registrationId, teamName, email, mobile and aadhar; and a submission
    whose (trimmed) teamName is already stored is rejected and changes
    nothing, whatever its event. *)
Theorem accepted_registrations_distinct (w : world) (Hw : reachable w) :
  pairwise_distinct (store w) /\
  forall (e : env) (rq : request) (r : registration),
    In r (store w) -> teamName r = trim (req_teamName rq) ->
    exists res, register e rq w = (w, res) /\ status res <> 200.
Proof.
  split; [by apply reachable_distinct|].
  intros e rq r Hr Ht. apply register_conflict_rejected.
  right; right; right. exists r. simpl. tauto.
Qed.


(** C9. No operation (registration, confirmation, export) removes a record
    or changes any field of it other than [isConfirmed], which can only go
    from false to true. *)
Theorem records_only_confirmed_changes (w w' : world) (Hstep : step w w') :
  forall i r, store w !! i = Some r ->
  exists r', store w' !! i = Some r' /\ same_except_confirmed r r' /\
             (isConfirmed r = true -> isConfirmed r' = true).
Proof.
  intros i r Hi.
  destruct (step_cases w w' Hstep) as [->|[(r0 & -> & _)|(k & r0 & Hk & Hc & ->)]].
  - exists r. split_and!; [done|apply same_except_confirmed_refl|done].
  - exists r. split_and!; [|apply same_except_confirmed_refl|done].
    rewrite lookup_app_l; [done|by eapply lookup_lt_Some].
  - destruct (decide (i = k)) as [->|Hne].
    + rewrite Hk in Hi. injection Hi as ->. exists (set_confirmed r).
      split_and!; [|apply set_confirmed_same|done].
      apply list_lookup_insert_eq. by eapply lookup_lt_Some.
    + exists r. split_and!; [|apply same_except_confirmed_refl|done].
      by rewrite list_lookup_insert_ne by congruence.
Qed.

(** C2 (what the code does). Once a submission is accepted, a later
    submission whose [aadharImage] has the same bytes (under any file name),
    with both files present and passing upload and field validation, is
    rejected with the duplicate-document error and changes nothing, in any
    later store that still holds the accepted record, provided each of the
    two submissions stored its two files at two different paths.  The
    digest is the function [md5_hex] of the bytes read back, so equal bytes
    give equal digests; when the two files of a submission share a path
    (same original name, same millisecond) the aadhar file holds the
    college ID's bytes. *)
Theorem identical_aadhar_image_rejected (e1 e2 : env) (rq1 rq2 : request) (w0 w2 : world)
    (af1 cf1 af2 cf2 : upload)
    (Hacc : status (snd (register e1 rq1 w0)) = 200)
    (Hf1 : req_aadharImage rq1 = Some af1) (Hc1 : req_collegeId rq1 = Some cf1)
    (Hsep1 : disk_path (aadharImage_now e1) af1 <> disk_path (collegeId_now e1) cf1)
    (Hkeep : forall r, In r (store (fst (register e1 rq1 w0))) -> In r (store w2))
    (Hf2 : req_aadharImage rq2 = Some af2) (Hc2 : req_collegeId rq2 = Some cf2)
    (Hsep2 : disk_path (aadharImage_now e2) af2 <> disk_path (collegeId_now e2) cf2)
    (Hbytes : content af2 = content af1)
    (Hm2 : multer_error rq2 = None) (Hv2 : validation_errors rq2 = []) :
  register e2 rq2 w2 = (w2, Resp 400 (JError "This Aadhar card image has already been uploaded")).
Proof.
  destruct (register_accepted _ _ _ Hacc) as (_ & _ & _ & af & cf & Ha & Hc & Hst).
  rewrite Hf1 in Ha. injection Ha as <-. rewrite Hc1 in Hc. injection Hc as <-.
  match type of Hst with _ = _ ++ [?r] => set (r1 := r) in Hst end.
  assert (Hin : In r1 (store w2)).
  { apply Hkeep. rewrite Hst. apply in_or_app. right. by left. }
  apply (register_aadhar_seen e2 rq2 w2 af2 cf2 r1); try done.
  simpl. by rewrite !aadhar_digest_sep, Hbytes.
Qed.

(** C10. The stored e-mail is the normalized one: once a submission is
    accepted, a later submission whose e-mail differs from it only in ASCII
    letter case, and whose other uniquely checked values are new, is
    rejected with "email already exists" and changes nothing.  (Its
    document digests, of the files as stored, must be new too: that check
    comes first.) *)
Theorem email_case_variant_rejected (e1 e2 : env) (rq1 rq2 : request) (w0 : world)
    (af2 cf2 : upload)
    (Hmd5 : forall bs, String.length (md5_hex bs) = 32)
    (Hacc : status (snd (register e1 rq1 w0)) = 200)
    (Hcase : toLowerCase (req_email rq2) = toLowerCase (req_email rq1))
    (Hf2 : req_aadharImage rq2 = Some af2) (Hc2 : req_collegeId rq2 = Some cf2)
    (Hm2 : multer_error rq2 = None) (Hv2 : validation_errors rq2 = [])
    (Hfresh : forall r, In r (store (fst (register e1 rq1 w0))) ->
        registrationId r <> req_registrationId rq2 /\ teamName r <> trim (req_teamName rq2) /\
        aadharImageHash r <> aadhar_digest e2 af2 cf2 /\
        collegeIdHash r <> collegeId_digest e2 af2 cf2) :
  register e2 rq2 (fst (register e1 rq1 w0)) =
    (fst (register e1 rq1 w0), Resp 400 (JError "email already exists")).
Proof.
  destruct (register_accepted _ _ _ Hacc) as (_ & _ & _ & af & cf & _ & _ & Hst).
  match type of Hst with _ = _ ++ [?r] => set (r1 := r) in Hst end.
  set (w1 := fst (register e1 rq1 w0)) in *.
  assert (Hin : In r1 (store w1)).
  { rewrite Hst. apply in_or_app. right. by left. }
  pose proof (validated_schema e2 rq2 (aadharImage_now e2) (collegeId_now e2) af2 cf2
    (read_file (uploads_written e2 af2 cf2) (disk_path (aadharImage_now e2) af2))
    (read_file (uploads_written e2 af2 cf2) (disk_path (collegeId_now e2) cf2)) Hv2 Hmd5) as Hsch.
  unfold register. rewrite Hm2, Hv2. unfold register_try. simpl. rewrite Hf2, Hc2.
  unfold_monad. simpl.
  rewrite (proj2 (find_one_None _ (store w1))); [|intros r Hr; apply String.eqb_neq;
    destruct (Hfresh r Hr) as (_ & _ & ? & _); done].
  rewrite (proj2 (find_one_None _ (store w1))); [|intros r Hr; apply String.eqb_neq;
    destruct (Hfresh r Hr) as (_ & _ & _ & ?); done].
  simpl.
  rewrite (proj2 (find_one_None _ (store w1))); [|intros r Hr; apply andb_false_iff; right;
    apply String.eqb_neq; destruct (Hfresh r Hr) as (_ & ? & _); done].
  simpl. rewrite Hsch. simpl.
  unfold violated_index, unique_indexes. simpl.
  rewrite existsb_all_false; [|intros r Hr; apply String.eqb_neq;
    destruct (Hfresh r Hr) as (? & _); simpl; congruence].
  rewrite existsb_all_false; [|intros r Hr; apply String.eqb_neq;
    destruct (Hfresh r Hr) as (_ & ? & _); simpl; congruence].
  replace (existsb _ (store w1)) with true; [reflexivity|].
  symmetry. apply existsb_exists. exists r1. split; [done|].
  apply String.eqb_eq. simpl. unfold normalized_email.
  by rewrite (normalizeEmail_case _ _ _ (req_email rq2) (req_email rq1) Hcase).
Qed.


(** C7 (what the code checks). The aadhar rule of the validation chain is
    [isLength({ min: 12, max: 12 })]: it reports "Aadhar must be 12 digits"
    exactly when the submitted aadhar is not 12 characters long, whatever
    characters it holds; a 12-character aadhar with letters passes it. *)
Theorem aadhar_check_is_length_only (rq : request) :
  In ("aadhar", "Aadhar must be 12 digits") (validation_errors rq) <->
  String.length (req_aadhar rq) <> 12%nat.
Proof.
  unfold validation_errors. rewrite !in_app_iff, !check_In.
  unfold isLength_12. rewrite Nat.eqb_neq. naive_solver.
Qed.

(** C8 (what the code checks). The mobile rule is validator.js
    [isMobilePhone('en-IN')], not [/^[6-9][0-9]{9}$/]: a valid ten-digit
    number written with the +91 prefix fails that regular expression, yet
    the validation chain reports no mobile error for it. *)
Theorem prefixed_mobile_passes_validation (rq : request) (m : string)
    (Hm : mobile_regex m = true) (Hrq : req_mobile rq = "+91" +:+ m) :
  mobile_regex (req_mobile rq) = false /\
  ~ In ("mobile", "Invalid mobile number") (validation_errors rq).
Proof.
  rewrite Hrq. split; [done|].
  unfold validation_errors. rewrite !in_app_iff, !check_In.
  rewrite Hrq, (isMobilePhone_en_IN_plus91 m Hm). naive_solver.
Qed.

(* ------------------------------------------------------------------ *)
(** ** Effects of a whole request on the world *)

Lemma register_try_world (e : env) (b : request) (w w' : world) o :
  register_try e b w = (w', o) ->
  (w' = w /\ forall res, o = inr res -> status res = 400) \/
  exists r, store w' = store w ++ [r] /\ violated_index r (store w) = None /\
    schema_valid r = true /\ isConfirmed r = false /\
    email r = req_email b /\ registrationId r = req_registrationId b /\
    ((outbox w' = outbox w /\ sheet w' = sheet w /\
      o = inl (JsError "Failed to send confirmation email")) \/
     (outbox w' = outbox w ++ [mkMail (email r) (registrationId r)] /\
      sheet w' = written_sheet (sheet w) (store w') /\ exists res, o = inr res /\ status res = 200)).
Proof.
  unfold register_try. intros H. run_handler;
    try (rewrite length_app in *; simpl in *; apply Nat.eqb_eq in H; lia);
    first [ left; split; [done|]; intros ? ?; by simplify_eq/=
          | right; eexists; split_and!; [reflexivity|..]; try done;
            first [by left | right; split_and!; [done|done|eexists; done]] ].
Qed.

Lemma violated_index_Some (r : registration) (l : list registration) kp :
  violated_index r l = Some kp -> exists f rest, kp = f :: rest.
Proof.
  unfold violated_index. destruct (List.find _ _) as [[kp' f]|] eqn:F; simpl; [|done].
  intros [= <-]. apply find_some in F as [Hin _]. simpl in Hin. naive_solver.
Qed.

Lemma register_world (e : env) (rq : request) (w : world) :
  (fst (register e rq w) = w /\ status (snd (register e rq w)) <> 200 /\
   status (snd (register e rq w)) <> 500) \/
  (fst (register e rq w) = w /\ snd (register e rq w) =
     Resp 500 (JError "Registration validation failed")) \/
  exists r, store (fst (register e rq w)) = store w ++ [r] /\
    violated_index r (store w) = None /\ schema_valid r = true /\ isConfirmed r = false /\
    email r = normalized_email (req_email rq) /\ registrationId r = req_registrationId rq /\
    ((outbox (fst (register e rq w)) = outbox w /\ sheet (fst (register e rq w)) = sheet w /\
      snd (register e rq w) = Resp 500 (JError "Failed to send confirmation email")) \/
     (recipient_defined (email r) = true /\
      outbox (fst (register e rq w)) = outbox w ++ [mkMail (email r) (registrationId r)] /\
      sheet (fst (register e rq w)) = written_sheet (sheet w) (store (fst (register e rq w))) /\
      status (snd (register e rq w)) = 200)).
Proof.
  unfold register. destruct (multer_error rq); [left; simpl; split_and!; [done|lia|lia]|].
  destruct (validation_errors rq); [|left; simpl; split_and!; [done|lia|lia]].
  unfold register_try. run_handler;
    repeat match goal with
    | H : violated_index _ _ = Some [] |- _ =>
        destruct (violated_index_Some _ _ _ H) as (? & ? & ?); discriminate
    | H : _ && _ = true |- _ => apply andb_prop in H as [? ?]
    end; simpl;
    try (rewrite length_app in *; simpl in *; apply Nat.eqb_eq in H; lia);
    first [ left; split_and!; [done|lia|lia]
          | by right; left
          | right; right; eexists; split_and!; [reflexivity|..]; try done;
            first [by left | right; split_and!; done] ].
Qed.

Lemma export_world (w : world) : fst (export_excel w) = w.
Proof. unfold export_excel. by destruct (store w). Qed.

Lemma In_insert_confirmed (l : list registration) (i : nat) (r0 r : registration) :
  l !! i = Some r0 -> In r (<[i := set_confirmed r0]> l) -> In r l \/ r = set_confirmed r0.
Proof.
  intros Hi Hr. apply list_elem_of_In, list_elem_of_lookup_1 in Hr as [j Hj].
  destruct (decide (i = j)) as [->|Hne].
  - rewrite list_lookup_insert_eq in Hj; [|by eapply lookup_lt_Some]. right. congruence.
  - rewrite list_lookup_insert_ne in Hj by done. left.
    apply list_elem_of_In. by eapply list_elem_of_lookup_2.
Qed.

Lemma In_confirmed_insert (l : list registration) (i : nat) (r0 r : registration) :
  l !! i = Some r0 -> In r l ->
  exists r', In r' (<[i := set_confirmed r0]> l) /\ same_except_confirmed r r'.
Proof.
  intros Hi Hr. apply list_elem_of_In, list_elem_of_lookup_1 in Hr as [j Hj].
  destruct (decide (i = j)) as [->|Hne].
  - rewrite Hi in Hj. injection Hj as <-. exists (set_confirmed r0). split; [|apply set_confirmed_same].
    apply list_elem_of_In. apply (list_elem_of_lookup_2 _ j).
    apply list_lookup_insert_eq. by eapply lookup_lt_Some.
  - exists r. split; [|apply same_except_confirmed_refl].
    apply list_elem_of_In. apply (list_elem_of_lookup_2 _ j).
    by rewrite list_lookup_insert_ne.
Qed.

Lemma map_const_nil {A B} (l : list A) : map (fun _ => @nil B) l = repeat [] (length l).
Proof. induction l as [|x l IH]; simpl; [done|by rewrite IH]. Qed.

Lemma excel_rows_insert_confirmed (k : nat) (l : list registration) (i : nat) (r0 : registration) :
  l !! i = Some r0 ->
  map excel_row (take k (<[i := set_confirmed r0]> l)) = map excel_row (take k l).
Proof.
  revert k i. induction l as [|x l IH]; intros k i Hi; [done|].
  destruct k as [|k]; [done|]. destruct i as [|i]; simpl in *.
  - by injection Hi as ->.
  - by rewrite IH.
Qed.

Lemma NoDup_snoc {A} (l : list A) (x : A) : NoDup l -> ~ In x l -> NoDup (l ++ [x]).
Proof.
  intros Hl Hx. apply NoDup_app. split_and!; [done| |apply NoDup_singleton].
  intros y Hy Hy'. apply list_elem_of_singleton in Hy' as ->.
  by apply Hx, list_elem_of_In.
Qed.

Lemma normalized_email_lower (s : string) : toLowerCase (normalized_email s) = normalized_email s.
Proof.
  unfold normalized_email, normalizeEmail.
  repeat case_match; simplify_eq/=; rewrite ?toLowerCase_app, ?toLowerCase_idem; try done;
    simpl; rewrite ?toLowerCase_app, ?toLowerCase_idem; done.
Qed.

(** ** Lemmas on the string primitives *)

Lemma append_nil_l (s : string) : EmptyString +:+ s = s.
Proof. reflexivity. Qed.

Lemma append_cons (c : ascii) (s t : string) : String c s +:+ t = String c (s +:+ t).
Proof. reflexivity. Qed.

Lemma append_empty_r (s : string) : s +:+ EmptyString = s.
Proof. induction s as [|c s IH]; [reflexivity|]. rewrite append_cons. by rewrite IH. Qed.

Lemma append_assoc_str (a b c : string) : (a +:+ b) +:+ c = a +:+ b +:+ c.
Proof. induction a as [|x a IH]; [reflexivity|]. rewrite !append_cons. by rewrite IH. Qed.

Lemma prefix_app (s t : string) : String.prefix s (s +:+ t) = true.
Proof.
  induction s as [|c s IH]; [rewrite append_nil_l; by destruct t|].
  rewrite append_cons. simpl. destruct (ascii_dec c c); [exact IH|congruence].
Qed.

Lemma contains_prefix (sub s : string) : String.prefix sub s = true -> contains sub s = true.
Proof. destruct s; simpl; intros ->; done. Qed.

Lemma contains_app (sub p q : string) : contains sub (p +:+ sub +:+ q) = true.
Proof.
  induction p as [|c p IH].
  - rewrite append_nil_l. apply contains_prefix, prefix_app.
  - rewrite append_cons. simpl. rewrite IH. apply orb_true_r.
Qed.

Lemma last_dot_go_no_dot (i : nat) (acc : option nat) (s : string) :
  has_char "." s = false -> last_dot_go i acc s = acc.
Proof.
  revert i. induction s as [|c s IH]; intros i Hs; [done|]; simpl in *.
  apply orb_false_iff in Hs as [Hc Hs]. rewrite Hc. by apply IH.
Qed.

Lemma split_on_cons (sep : ascii) (s : string) : exists p ps, split_on sep s = p :: ps.
Proof.
  induction s as [|c s (p & ps & IH)]; simpl; [by eauto|].
  rewrite IH. destruct (Ascii.eqb c sep); eauto.
Qed.

Lemma split_on_app_no_sep (sep : ascii) (a b : string) :
  has_char sep a = false ->
  split_on sep (a +:+ b) =
    match split_on sep b with p :: ps => (a +:+ p) :: ps | [] => [a] end.
Proof.
  induction a as [|c a IH]; intros Ha.
  - rewrite append_nil_l. destruct (split_on_cons sep b) as (p & ps & Hp). by rewrite Hp.
  - rewrite append_cons. simpl in *. apply orb_false_iff in Ha as [Hc Ha].
    rewrite Hc, IH by done. destruct (split_on_cons sep b) as (p & ps & Hp). by rewrite Hp.
Qed.

Lemma split_on_no_sep (sep : ascii) (a : string) : has_char sep a = false -> split_on sep a = [a].
Proof.
  intros Ha. transitivity (split_on sep (a +:+ EmptyString)); [by rewrite append_empty_r|].
  rewrite split_on_app_no_sep by done. simpl. by rewrite append_empty_r.
Qed.

Lemma split_on_at_tag (u t d : string) :
  has_char "@" u = false -> has_char "@" t = false -> has_char "@" d = false ->
  split_on "@" (u +:+ "+" +:+ t +:+ "@" +:+ d) = [u +:+ "+" +:+ t; d].
Proof.
  intros Hu Ht Hd. rewrite split_on_app_no_sep by done. rewrite !append_cons, !append_nil_l.
  simpl. rewrite split_on_app_no_sep by done. simpl. rewrite split_on_no_sep by done.
  by rewrite append_empty_r.
Qed.

Lemma split_on_at (u d : string) :
  has_char "@" u = false -> has_char "@" d = false ->
  split_on "@" (u +:+ "@" +:+ d) = [u; d].
Proof.
  intros Hu Hd. rewrite split_on_app_no_sep by done. rewrite append_cons, append_nil_l.
  simpl. rewrite split_on_no_sep by done. by rewrite append_empty_r.
Qed.

Lemma split_on_plus (u t : string) :
  has_char "+" u = false -> head_str (split_on "+" (u +:+ "+" +:+ t)) = u.
Proof.
  intros Hu. rewrite split_on_app_no_sep by done. rewrite append_cons, append_nil_l.
  simpl. by rewrite append_empty_r.
Qed.

Lemma export_rows_insert_confirmed (l : list registration) (i : nat) (r0 : registration) :
  l !! i = Some r0 -> map export_row (<[i := set_confirmed r0]> l) = map export_row l.
Proof.
  revert i. induction l as [|x l IH]; intros i Hi; [done|].
  destruct i as [|i]; simpl in *.
  - by injection Hi as ->.
  - by rewrite IH.
Qed.

(* ------------------------------------------------------------------ *)
(** ** Further properties of the handlers *)

(** Every stored record satisfies the schema's [required] paths and the
    [teamSize] bounds: inserts are validated and a confirmation changes
    only [isConfirmed]. *)
Theorem reachable_schema_valid (w : world) (Hw : reachable w) :
  Forall (fun r => schema_valid r = true) (store w).
Proof.
  induction Hw as [|w w' Hw IH Hs]; [constructor|].
  destruct Hs as [e rq w|rid w|w].
  - destruct (register_world e rq w) as [[-> _]|[[-> _]|(r & -> & _ & Hr & _)]]; [done|done|].
    apply Forall_app. split; [done|by constructor].
  - destruct (confirm_store rid w) as [->|(i & r & Hi & _ & _ & ->)]; [done|simpl].
    rewrite List.Forall_forall in IH |- *. intros x Hx.
    destruct (In_insert_confirmed _ _ _ _ Hi Hx) as [Hx' | ->]; [by apply IH|].
    apply list_elem_of_lookup_2, list_elem_of_In, IH in Hi. by destruct r.
  - by rewrite export_world.
Qed.

(** Every stored e-mail is in lower case: the register route stores the
    output of [normalizeEmail] (or "false"), whatever the submitted case. *)
Theorem reachable_emails_lowercase (w : world) (Hw : reachable w) :
  forall r, In r (store w) -> toLowerCase (email r) = email r.
Proof.
  induction Hw as [|w w' Hw IH Hs]; [done|].
  destruct Hs as [e rq w|rid w|w].
  - destruct (register_world e rq w) as [[-> _]|[[-> _]|(r & -> & _ & _ & _ & He & _)]]; [done|done|].
    intros x Hx. apply in_app_iff in Hx as [Hx|[<-|[]]]; [by apply IH|].
    rewrite He. apply normalized_email_lower.
  - destruct (confirm_store rid w) as [->|(i & r & Hi & _ & _ & ->)]; [done|simpl].
    intros x Hx. destruct (In_insert_confirmed _ _ _ _ Hi Hx) as [Hx' | ->]; [by apply IH|].
    simpl. apply IH. apply list_elem_of_In. by eapply list_elem_of_lookup_2.
  - by rewrite export_world.
Qed.

(** Confirmation mails: no registration id is mailed twice, and every queued
    mail goes to the stored e-mail of a stored record with the mailed
    registration id. *)
Theorem reachable_mails_match (w : world) (Hw : reachable w) :
  NoDup (map mail_registrationId (outbox w)) /\
  forall m, In m (outbox w) ->
    exists r, In r (store w) /\ email r = mail_to m /\ registrationId r = mail_registrationId m.
Proof.
  induction Hw as [|w w' Hw [IHd IH] Hs]; [split; [constructor|done]|].
  destruct Hs as [e rq w|rid w|w].
  - destruct (register_world e rq w)
      as [[-> _]|[[-> _]|(r & Hst & Hv & _ & _ & _ & _ & [(Ho & _ & _)|(_ & Ho & _ & _)])]];
      [done|done| |].
    + rewrite Ho, Hst. split; [done|]. intros m Hm.
      destruct (IH m Hm) as (x & Hx & ?). exists x. rewrite in_app_iff. naive_solver.
    + rewrite Ho, Hst, map_app. simpl. split.
      * apply NoDup_snoc; [done|]. intros Hin. apply in_map_iff in Hin as (m & Hm & Hmo).
        destruct (IH m Hmo) as (x & Hx & _ & Hid).
        destruct (violated_index_None _ _ Hv x Hx) as (Hne & _). congruence.
      * intros m Hm. apply in_app_iff in Hm as [Hm|[<-|[]]].
        -- destruct (IH m Hm) as (x & Hx & ?). exists x. rewrite in_app_iff. naive_solver.
        -- exists r. rewrite in_app_iff. simpl. naive_solver.
  - destruct (confirm_store rid w) as [->|(i & r & Hi & _ & _ & ->)]; [done|simpl].
    split; [done|]. intros m Hm. destruct (IH m Hm) as (x & Hx & He & Hid).
    destruct (In_confirmed_insert _ _ _ _ Hi Hx) as (x' & Hx' & Hs).
    exists x'. destruct Hs as (Hid' & _ & _ & _ & He' & _). split_and!; congruence.
  - by rewrite export_world.
Qed.

(** The Excel sheet: not yet written, or the header, an empty row 2 and
    the rows of a prefix of the store (from the first mailed registration,
    a record whose mail failed missing until the next write, confirmations
    not shown), or, once the file has been rewritten, the header, an empty
    row 2 and one empty row per record of that write, with no data: every
    later [generateExcel] reads the workbook back without column keys. *)
Theorem reachable_sheet_shape (w : world) (Hw : reachable w) :
  sheet w = [] \/
  (exists k, 0 < k <= length (store w) /\
     sheet w = excel_header :: [] :: map excel_row (take k (store w))) \/
  (exists k, 0 < k <= length (store w) /\
     sheet w = excel_header :: [] :: repeat [] k).
Proof.
  induction Hw as [|w w' Hw IH Hs]; [by left|].
  destruct Hs as [e rq w|rid w|w].
  - destruct (register_world e rq w)
      as [[-> _]|[[-> _]|(r & Hst & _ & _ & _ & _ & _ & [(_ & Hsh & _)|(_ & _ & Hsh & _)])]];
      [done|done| |].
    + rewrite Hsh, Hst, length_app.
      destruct IH as [?|[(k & Hk & ->)|(k & Hk & ->)]]; [by left| |].
      * right; left. exists k. rewrite take_app_le by lia. split; [simpl; lia|done].
      * right; right. exists k. split; [simpl; lia|done].
    + rewrite Hsh. set (l := store (fst (register e rq w))).
      assert (Hl : 0 < length l) by (unfold l; rewrite Hst, length_app; simpl; lia).
      destruct IH as [->|[(k & Hk & ->)|(k & Hk & ->)]]; simpl.
      * right; left. exists (length l). rewrite take_ge by done. split; [lia|done].
      * right; right. exists (length l). rewrite map_const_nil. split; [lia|done].
      * right; right. exists (length l). rewrite map_const_nil. split; [lia|done].
  - destruct (confirm_store rid w) as [->|(i & r & Hi & _ & _ & ->)]; [done|simpl].
    rewrite length_insert.
    destruct IH as [?|[(k & Hk & ->)|(k & Hk & ->)]]; [by left| |].
    + right; left. exists k. by rewrite excel_rows_insert_confirmed.
    + right; right. by exists k.
  - by rewrite export_world.
Qed.

(** The register route answers 400 only without touching the world: a
    rejected submission is never half stored. *)
Theorem register_400_unchanged (e : env) (rq : request) (w : world)
    (H400 : status (snd (register e rq w)) = 400) :
  fst (register e rq w) = w.
Proof.
  destruct (register_world e rq w)
    as [[? _]|[[_ Hr]|(r & _ & _ & _ & _ & _ & _ & [(_ & _ & Hr)|(_ & _ & _ & H200)])]];
    [done| rewrite Hr in H400; discriminate | rewrite Hr in H400; discriminate | lia].
Qed.

(** A 200 answer of the register route has exactly three effects: one
    unconfirmed record with the normalized e-mail (an address, not the
    "false" of a rejected one) and the submitted registration id is
    appended; one mail to that address for that id is queued; and the sheet
    is written: a new file gets the header, an empty row 2 and the rows of
    the whole new store, an existing file keeps its first row and gets an
    empty row 2 and one empty row per record. *)
Theorem register_success_effect (e : env) (rq : request) (w : world)
    (H200 : status (snd (register e rq w)) = 200) :
  exists r, store (fst (register e rq w)) = store w ++ [r] /\
    isConfirmed r = false /\ email r = normalized_email (req_email rq) /\
    email r <> "false" /\ registrationId r = req_registrationId rq /\
    outbox (fst (register e rq w)) = outbox w ++ [mkMail (email r) (registrationId r)] /\
    (sheet w = [] ->
       sheet (fst (register e rq w)) =
         excel_header :: [] :: map excel_row (store (fst (register e rq w)))) /\
    (forall header rest, sheet w = header :: rest ->
       sheet (fst (register e rq w)) =
         header :: [] :: repeat [] (length (store (fst (register e rq w))))).
Proof.
  destruct (register_world e rq w)
    as [[_ [Hne _]]|[[_ Hr]|(r & Hs & _ & _ & Hc & He & Hid & [(_ & _ & Hr)|(Hrec & Ho & Hsh & _)])]];
    [done| rewrite Hr in H200; discriminate | rewrite Hr in H200; discriminate |].
  exists r. split_and!; try done.
  - unfold recipient_defined in Hrec. apply negb_true_iff, String.eqb_neq in Hrec. done.
  - intros Hw. by rewrite Hsh, Hw.
  - intros h rest Hw. by rewrite Hsh, Hw, <- map_const_nil.
Qed.

(** A submission that passes the upload filter and the validators but lacks
    one of the two files is answered 400 with the missing-files message. *)
Theorem register_missing_file (e : env) (rq : request) (w : world)
    (Hm : multer_error rq = None) (Hv : validation_errors rq = [])
    (Hf : req_aadharImage rq = None \/ req_collegeId rq = None) :
  register e rq w = (w, Resp 400 (JError "Both Aadhar card and College ID images are required")).
Proof.
  unfold register. rewrite Hm, Hv. unfold register_try. simpl.
  destruct Hf as [-> | ->]; [done|]. by destruct (req_aadharImage rq).
Qed.

(** With fresh document digests (of the files as stored), a stored record
    of the same event and the same trimmed team name makes the route answer
    400 with the message that names the trimmed team and the event, and
    nothing is stored. *)
Theorem register_team_in_event (e : env) (rq : request) (w : world) (af cf : upload)
    (r : registration)
    (Hm : multer_error rq = None) (Hv : validation_errors rq = [])
    (Ha : req_aadharImage rq = Some af) (Hc : req_collegeId rq = Some cf)
    (Hfresh : forall x, In x (store w) ->
       aadharImageHash x <> aadhar_digest e af cf /\ collegeIdHash x <> collegeId_digest e af cf)
    (Hr : In r (store w)) (He : event r = req_event rq)
    (Ht : teamName r = trim (req_teamName rq)) :
  register e rq w =
    (w, Resp 400 (JError ("Team '" +:+ trim (req_teamName rq) +:+
                          "' is already registered for '" +:+ req_event rq +:+ "'"))).
Proof.
  unfold register. rewrite Hm, Hv. unfold register_try. simpl. rewrite Ha, Hc.
  unfold_monad. simpl. fold_digests.
  rewrite (proj2 (find_one_None _ (store w))); [|intros r0 Hr0; apply String.eqb_neq;
    by destruct (Hfresh r0 Hr0)].
  rewrite (proj2 (find_one_None _ (store w))); [|intros r0 Hr0; apply String.eqb_neq;
    by destruct (Hfresh r0 Hr0)].
  simpl.
  destruct (find_one_In (fun x => String.eqb (event x) (req_event rq) &&
                                  String.eqb (teamName x) (trim (req_teamName rq)))
              (store w) r Hr) as (i & r' & ->);
    [by rewrite He, Ht, !String.eqb_refl|].
  reflexivity.
Qed.

(** The upload filter of server.js needs an extension: a file name with no
    dot, or whose only dot is its first character, is refused whatever its
    mimetype and size. *)
Theorem file_error_needs_extension (name mime : string) (bs : list Byte.byte)
    (Hn : has_char "." name = false) :
  file_error (mkUpload name mime bs) = Some "Only images (jpeg, jpg, png) and PDFs are allowed" /\
  file_error (mkUpload (String "." name) mime bs) =
    Some "Only images (jpeg, jpg, png) and PDFs are allowed".
Proof.
  unfold file_error, extname. simpl. rewrite !last_dot_go_no_dot by done. done.
Qed.

(** The mimetype test of the upload filter is a substring search: with an
    accepted extension and at most 300000 bytes, any mimetype containing
    one of jpeg, jpg, png, pdf passes, e.g. "application/x-pdf-exploit". *)
Theorem file_error_mimetype_substring (f : upload) (p word q : string)
    (Hw : In word ["jpeg"; "jpg"; "png"; "pdf"])
    (Hext : fileTypes_test (toLowerCase (extname (originalname f))) = true)
    (Hs : (N.of_nat (length (content f)) <= 300000)%N) :
  file_error (mkUpload (originalname f) (p +:+ word +:+ q) (content f)) = None.
Proof.
  unfold file_error. simpl. rewrite Hext. simpl.
  assert (fileTypes_test (p +:+ word +:+ q) = true) as ->.
  { unfold fileTypes_test.
    destruct Hw as [<-|[<-|[<-|[<-|[]]]]]; rewrite contains_app; by rewrite ?orb_true_r. }
  simpl. replace (300000 <? N.of_nat (length (content f)))%N with false; [done|].
  symmetry. by apply N.ltb_ge.
Qed.

(** normalizeEmail drops a "+tag" for gmail.com, googlemail.com, the
    iCloud domains and the Outlook.com domains: "u+t@d" is stored as "u@d"
    is (u without '@' and '+', t and d without '@'). *)
Theorem normalized_email_drops_tag (u t d : string)
    (Hu : has_char "@" u = false) (Hu' : has_char "+" u = false)
    (Ht : has_char "@" t = false) (Hd : has_char "@" d = false)
    (Hdom : (String.eqb (toLowerCase d) "gmail.com" || String.eqb (toLowerCase d) "googlemail.com" ||
             mem (toLowerCase d) icloud_domains || mem (toLowerCase d) outlookdotcom_domains) = true) :
  normalized_email (u +:+ "+" +:+ t +:+ "@" +:+ d) = normalized_email (u +:+ "@" +:+ d).
Proof.
  unfold normalized_email, normalizeEmail.
  rewrite split_on_at_tag, split_on_at by done.
  cbn [List.last removelast join String.concat].
  rewrite split_on_plus by done. rewrite (split_on_no_sep "+" u) by done. cbn [head_str].
  destruct (String.eqb (toLowerCase d) "gmail.com" || String.eqb (toLowerCase d) "googlemail.com");
    [done|].
  destruct (mem (toLowerCase d) icloud_domains); [done|].
  destruct (mem (toLowerCase d) outlookdotcom_domains); [done|]. done.
Qed.

(** An address whose local part starts with '+' at one of those providers
    has an empty user part: normalizeEmail returns [false], which Mongoose
    stores as the string "false"; all such addresses are stored alike. *)
Theorem normalized_email_empty_user (t d : string)
    (Ht : has_char "@" t = false) (Hd : has_char "@" d = false)
    (Hdom : (String.eqb (toLowerCase d) "gmail.com" || String.eqb (toLowerCase d) "googlemail.com" ||
             mem (toLowerCase d) icloud_domains || mem (toLowerCase d) outlookdotcom_domains) = true) :
  normalized_email ("+" +:+ t +:+ "@" +:+ d) = "false".
Proof.
  unfold normalized_email, normalizeEmail.
  pose proof (split_on_at_tag EmptyString t d eq_refl Ht Hd) as Hs.
  rewrite !append_nil_l in Hs. rewrite Hs.
  cbn [List.last removelast join String.concat].
  change (head_str (split_on "+" ("+" +:+ t))) with EmptyString.
  destruct (String.eqb (toLowerCase d) "gmail.com" || String.eqb (toLowerCase d) "googlemail.com");
    [done|].
  destruct (mem (toLowerCase d) icloud_domains); [done|].
  destruct (mem (toLowerCase d) outlookdotcom_domains); [done|]. done.
Qed.

(** Confirming a registration leaves the export of part_001's
    [/api/export-excel] unchanged: the export has no confirmation column. *)
Theorem confirm_export_unchanged (rid : string) (w : world) :
  snd (export_excel (fst (confirm rid w))) = snd (export_excel w).
Proof.
  destruct (confirm_store rid w) as [->|(i & r & Hi & _ & _ & ->)]; [done|].
  unfold export_excel. simpl. pose proof (export_rows_insert_confirmed _ _ _ Hi) as Hx.
  destruct (store w) as [|x l]; [done|]. destruct i; simpl in *; by rewrite Hx.
Qed.

(** With a digest of the shape of MD5 (32 characters), the register route
    answers 500 only when the mail fails: the record is then stored, the
    outbox is unchanged, and the message is "Failed to send confirmation
    email"; the 500 of a failed document validation cannot happen. *)
Theorem register_500_is_mail_failure (e : env) (rq : request) (w : world)
    (Hmd5 : forall bs, String.length (md5_hex bs) = 32)
    (H500 : status (snd (register e rq w)) = 500) :
  snd (register e rq w) = Resp 500 (JError "Failed to send confirmation email") /\
  outbox (fst (register e rq w)) = outbox w /\
  exists r, store (fst (register e rq w)) = store w ++ [r].
Proof.
  revert H500. unfold register.
  destruct (multer_error rq); [simpl; lia|].
  destruct (validation_errors rq) eqn:Hv; [|simpl; lia].
  pose proof (validated_schema e rq) as Hsch.
  unfold register_try. simpl.
  destruct (req_aadharImage rq) as [af|]; [|simpl; lia].
  destruct (req_collegeId rq) as [cf|]; [|simpl; lia].
  specialize (Hsch (aadharImage_now e) (collegeId_now e) af cf).
  specialize (fun bsa bsc => Hsch bsa bsc Hv Hmd5).
  run_handler; try lia; try (rewrite Hsch in *; discriminate);
    try (intros _; split_and!; [done|done|eexists; done]);
    repeat match goal with
    | H : violated_index _ _ = Some [] |- _ =>
        destruct (violated_index_Some _ _ _ H) as (? & ? & ?); discriminate
    end; simpl; lia.
Qed.

(* ------------------------------------------------------------------ *)
(** ** The in-memory variant (src/unnamed/part_001) *)

Section Part001Props.

Variable sha256_hex : list Byte.byte -> string.
Variable sendMail_error : string.

Ltac unfold_monad_001 :=
  unfold_monad; unfold save_new_001, calculateFileHash_001, sendConfirmationEmail_001 in *.

Ltac run_handler_001 :=
  repeat (unfold_monad_001; case_match; simplify_eq/=); unfold_monad_001; simplify_eq/=; clean_negb.

Lemma violated_index_001_Some (r : registration) (l : list registration) kp :
  violated_index_001 r l = Some kp -> exists f rest, kp = f :: rest.
Proof.
  unfold violated_index_001. destruct (List.find _ _) as [[kp' f]|] eqn:F; simpl; [|done].
  intros [= <-]. apply find_some in F as [Hin _]. simpl in Hin. naive_solver.
Qed.

Lemma validation_errors_001_mobile (rq : request) :
  validation_errors_001 rq = [] -> mobile_regex (req_mobile rq) = true.
Proof. unfold validation_errors_001. intros H. apply check_nil in H as [_ H]. by apply check_nil in H as [-> _]. Qed.

Lemma register_try_001_world (e : env) (b : request) (w w' : world) o :
  register_try_001 sha256_hex sendMail_error e b w = (w', o) ->
  (w' = w /\ exists ex, o = inl ex) \/
  exists r, store w' = store w ++ [r] /\ violated_index_001 r (store w) = None /\
    isConfirmed r = false /\ email r = req_email b /\
    registrationId r = req_registrationId b /\ mobile r = req_mobile b /\
    aadharImage r = "" /\ collegeId r = "" /\ sheet w' = sheet w /\
    ((smtp_ok e = false /\ outbox w' = outbox w /\ o = inl (JsError sendMail_error)) \/
     (smtp_ok e = true /\ recipient_defined (email r) = false /\ outbox w' = outbox w /\
      o = inl (JsError "No recipients defined")) \/
     (smtp_ok e = true /\ recipient_defined (email r) = true /\
      outbox w' = outbox w ++ [mkMail (email r) (registrationId r)] /\
      exists res, o = inr res /\ status res = 200)).
Proof.
  unfold register_try_001. intros H. run_handler_001;
    first [ left; split; [done|]; by eexists
          | right; eexists; split_and!; [reflexivity|..]; try done;
            first [ by left | right; left; by split_and!
                  | right; right; split_and!; [done|done|done|eexists; done]] ].
Qed.

(** The register route of part_001 never answers 500, and never writes the
    sheet: a 400 answer with the world unchanged, or one new unconfirmed
    record, free of every unique index, with the normalized e-mail, a mobile
    matching /^[6-9][0-9]{9}$/ and no file paths, followed either by the
    mail (answer 200), or by a 400 answer while the record stays stored and
    no mail is queued: with the transport's error message when the
    transport fails, and with "No recipients defined" when the transport is
    up but the stored e-mail is the "false" of an address [normalizeEmail]
    rejected. *)
Theorem register_001_outcomes (e : env) (rq : request) (w : world) :
  (fst (register_001 sha256_hex sendMail_error e rq w) = w /\
   status (snd (register_001 sha256_hex sendMail_error e rq w)) = 400) \/
  exists r,
    store (fst (register_001 sha256_hex sendMail_error e rq w)) = store w ++ [r] /\
    violated_index_001 r (store w) = None /\ isConfirmed r = false /\
    email r = normalized_email (req_email rq) /\ registrationId r = req_registrationId rq /\
    mobile_regex (mobile r) = true /\ aadharImage r = "" /\ collegeId r = "" /\
    sheet (fst (register_001 sha256_hex sendMail_error e rq w)) = sheet w /\
    ((smtp_ok e = false /\
      outbox (fst (register_001 sha256_hex sendMail_error e rq w)) = outbox w /\
      snd (register_001 sha256_hex sendMail_error e rq w) =
        Resp 400 (JError (if is_empty_str sendMail_error
                          then "An unexpected error occurred during registration"
                          else sendMail_error))) \/
     (smtp_ok e = true /\ email r = "false" /\
      outbox (fst (register_001 sha256_hex sendMail_error e rq w)) = outbox w /\
      snd (register_001 sha256_hex sendMail_error e rq w) =
        Resp 400 (JError "No recipients defined")) \/
     (smtp_ok e = true /\ email r <> "false" /\
      outbox (fst (register_001 sha256_hex sendMail_error e rq w)) =
        outbox w ++ [mkMail (email r) (registrationId r)] /\
      status (snd (register_001 sha256_hex sendMail_error e rq w)) = 200)).
Proof.
  unfold register_001. destruct (multer_error_001 rq); [by left|].
  destruct (validation_errors_001 rq) eqn:Hv; [|by left].
  apply validation_errors_001_mobile in Hv.
  destruct (register_try_001 sha256_hex sendMail_error e (sanitize rq) w) as [w' o] eqn:Ht.
  destruct (register_try_001_world _ _ _ _ _ Ht)
    as [(-> & ex & ->)|(r & Hs & Hvi & Hc & He & Hid & Hmo & Ha & Hcl & Hsh & Hm)].
  - left. split; [done|]. simpl. unfold register_catch_001. by repeat case_match.
  - right. exists r. unfold recipient_defined in Hm.
    destruct Hm as [(? & ? & ->)|[(? & Hr & ? & ->)|(? & Hr & ? & res & -> & ?)]]; simpl; rewrite Hmo;
      split_and!; try done.
    + by left.
    + right; left. apply negb_false_iff, String.eqb_eq in Hr. by split_and!.
    + right; right. apply negb_true_iff, String.eqb_neq in Hr. by split_and!.
Qed.

(** part_001 rejects a submission whose aadhar image was stored before as
    an aadhar image, or whose college ID was stored before as a college ID,
    with one combined message, and stores nothing. *)
Theorem register_001_document_seen (e : env) (rq : request) (w : world) (af cf : upload)
    (Hm : multer_error_001 rq = None) (Hv : validation_errors_001 rq = [])
    (Ha : req_aadharImage rq = Some af) (Hc : req_collegeId rq = Some cf)
    (Hseen : exists r, In r (store w) /\
       (aadharImageHash r = sha256_hex (content af) \/ collegeIdHash r = sha256_hex (content cf))) :
  register_001 sha256_hex sendMail_error e rq w =
    (w, Resp 400 (JError "This Aadhar card or College ID image has already been uploaded")).
Proof.
  unfold register_001. rewrite Hm, Hv. unfold register_try_001. simpl. rewrite Ha, Hc.
  unfold_monad_001. simpl. destruct Hseen as (r & Hr & [Hh|Hh]).
  - destruct (find_one_In (fun x => String.eqb (aadharImageHash x) (sha256_hex (content af)))
                (store w) r Hr) as (i & r' & ->); [simpl; by rewrite Hh, String.eqb_refl|].
    reflexivity.
  - destruct (find_one_In (fun x => String.eqb (collegeIdHash x) (sha256_hex (content cf)))
                (store w) r Hr) as (i & r' & ->); [simpl; by rewrite Hh, String.eqb_refl|].
    simpl. rewrite orb_true_r. reflexivity.
Qed.

(** The part_001 route does not depend on the names of the uploaded files:
    renaming them (same mimetype and bytes) gives the same answer and the
    same world. *)
Theorem register_001_file_names_irrelevant (e : env) (rq : request) (w : world) (n1 n2 : string) :
  register_001 sha256_hex sendMail_error e (rename_files n1 n2 rq) w =
  register_001 sha256_hex sendMail_error e rq w.
Proof.
  destruct rq as [? ? ? ? ? ? ? ? ? ? ? ? ? [a|] [c|]]; reflexivity.
Qed.

(** part_001's upload filter reads the mimetype only, as a substring
    search: any file name (no extension, ".exe", ...) with a mimetype
    containing jpeg, jpg, png or pdf and at most 300000 bytes passes. *)
Theorem file_error_001_any_name (name p word q : string) (bs : list Byte.byte)
    (Hw : In word ["jpeg"; "jpg"; "png"; "pdf"])
    (Hs : (N.of_nat (length bs) <= 300000)%N) :
  file_error_001 (mkUpload name (p +:+ word +:+ q) bs) = None.
Proof.
  unfold file_error_001. simpl.
  assert (fileTypes_test (p +:+ word +:+ q) = true) as ->.
  { unfold fileTypes_test.
    destruct Hw as [<-|[<-|[<-|[<-|[]]]]]; rewrite contains_app; by rewrite ?orb_true_r. }
  simpl. replace (300000 <? N.of_nat (length bs))%N with false; [done|].
  symmetry. by apply N.ltb_ge.
Qed.

End Part001Props.
End Server.

(* ------------------------------------------------------------------ *)
(** ** Concrete runs *)

(** The server instantiated with the sample digest, [isEmail] and domain
    lists, and the world after [rq_first] has been accepted. *)
Local Abbreviation sample_register :=
  (register sample_md5_hex sample_isEmail sample_outlook sample_yahoo sample_yandex).
Local Abbreviation w_first := (fst (sample_register sample_env rq_first empty_world)).

Lemma hex_pad_length (n : nat) (bs : list Byte.byte) : String.length (hex_pad n bs) = n.
Proof. revert bs. induction n as [|n IH]; intros [|b bs]; simpl; auto. Qed.

Lemma w_first_reachable :
  reachable sample_md5_hex sample_isEmail sample_outlook sample_yahoo sample_yandex w_first.
Proof. eapply reachable_step; [apply reachable_empty | apply step_register]. Qed.

(** C2 at a sample run: the second submission reuses the aadhar-image bytes
    of the first under another file name. *)
Lemma identical_aadhar_image_rejected_witness :
  status (snd (sample_register sample_env rq_first empty_world)) = 200 /\
  sample_register sample_env rq_same_aadhar_image w_first =
    (w_first, Resp 400 (JError "This Aadhar card image has already been uploaded")).
Proof.
  split; [vm_compute; reflexivity|].
  apply (identical_aadhar_image_rejected sample_md5_hex sample_isEmail sample_outlook
           sample_yahoo sample_yandex sample_env sample_env
           rq_first rq_same_aadhar_image empty_world w_first
           (sample_png "aadhar.png" [Byte.x61; Byte.x62])
           (sample_png "college.png" [Byte.x63; Byte.x64])
           (sample_png "copy.png" [Byte.x61; Byte.x62])
           (sample_png "id2.png" [Byte.x65; Byte.x66]));
    [vm_compute; reflexivity | reflexivity | reflexivity
    | apply String.eqb_neq; vm_compute; reflexivity | intros r Hr; exact Hr
    | reflexivity | reflexivity | apply String.eqb_neq; vm_compute; reflexivity
    | reflexivity | vm_compute; reflexivity | vm_compute; reflexivity].
Defined.

(** C3 at the store holding one accepted registration. *)
Lemma confirm_contract_witness :
  ((forall r, In r (store w_first) -> registrationId r <> "HTF001") ->
     confirm "HTF001" w_first = (w_first, Resp 404 (JError "Registration not found"))) /\
  (forall r, In r (store w_first) -> registrationId r = "HTF001" -> isConfirmed r = true ->
     confirm "HTF001" w_first = (w_first, Resp 400 (JError "Email already confirmed"))) /\
  (forall i r, store w_first !! i = Some r -> registrationId r = "HTF001" ->
     isConfirmed r = false ->
     confirm "HTF001" w_first =
       (mkWorld (<[i := set_confirmed r]> (store w_first)) (outbox w_first) (sheet w_first),
        Resp 200 (JMessage "Email confirmed successfully")) /\
     confirm "HTF001" (fst (confirm "HTF001" w_first)) =
       (fst (confirm "HTF001" w_first), Resp 400 (JError "Email already confirmed"))).
Proof.
  apply (confirm_contract sample_md5_hex sample_isEmail sample_outlook sample_yahoo
           sample_yandex w_first "HTF001").
  apply w_first_reachable.
Defined.

(** C4 at a sample run: a document-hash conflict. *)
Lemma conflict_rejected_atomically_witness :
  exists res, sample_register sample_env rq_same_aadhar_image w_first = (w_first, res) /\
              status res <> 200.
Proof.
  apply (conflict_rejected_atomically sample_md5_hex sample_isEmail sample_outlook
           sample_yahoo sample_yandex sample_env rq_same_aadhar_image w_first).
  left. exists (sample_png "copy.png" [Byte.x61; Byte.x62]), (sample_png "id2.png" [Byte.x65; Byte.x66]).
  vm_compute. eexists. split_and!; [reflexivity | reflexivity | left; reflexivity | reflexivity].
Defined.

(** C5 at the store holding one accepted registration. *)
Lemma accepted_registrations_distinct_witness :
  pairwise_distinct (store w_first) /\
  forall (e : env) (rq : request) (r : registration),
    In r (store w_first) -> teamName r = trim (req_teamName rq) ->
    exists res, sample_register e rq w_first = (w_first, res) /\ status res <> 200.
Proof.
  apply (accepted_registrations_distinct sample_md5_hex sample_isEmail sample_outlook
           sample_yahoo sample_yandex w_first).
  apply w_first_reachable.
Defined.


(** C9 at a confirmation step: the stored record and its confirmed copy. *)
Lemma records_only_confirmed_changes_witness :
  exists r r', store w_first !! 0%nat = Some r /\
    store (fst (confirm "HTF001" w_first)) !! 0%nat = Some r' /\
    same_except_confirmed r r' /\ isConfirmed r = false /\ isConfirmed r' = true.
Proof.
  assert (H0 : is_Some (store w_first !! 0%nat)) by (vm_compute; eauto).
  destruct H0 as [r Hr].
  destruct (records_only_confirmed_changes sample_md5_hex sample_isEmail sample_outlook
              sample_yahoo sample_yandex w_first (fst (confirm "HTF001" w_first))
              (step_confirm _ _ _ _ _ "HTF001" w_first) 0%nat r Hr) as (r' & Hr' & Hs & _).
  exists r, r'. split_and!; [exact Hr | exact Hr' | exact Hs | |].
  - vm_compute in Hr. injection Hr as <-. reflexivity.
  - vm_compute in Hr'. injection Hr' as <-. reflexivity.
Defined.

(** C10 at a sample run: the second e-mail differs only in letter case. *)
Lemma email_case_variant_rejected_witness :
  req_email rq_email_case <> req_email rq_first /\
  sample_register sample_env rq_email_case w_first =
    (w_first, Resp 400 (JError "email already exists")).
Proof.
  split; [vm_compute; discriminate|].
  apply (email_case_variant_rejected sample_md5_hex sample_isEmail sample_outlook
           sample_yahoo sample_yandex sample_env sample_env rq_first rq_email_case
           empty_world (sample_png "a2.png" [Byte.x67]) (sample_png "c2.png" [Byte.x68]));
    [intros bs; apply hex_pad_length | vm_compute; reflexivity | vm_compute; reflexivity
    | reflexivity | reflexivity | vm_compute; reflexivity | vm_compute; reflexivity |].
  intros r Hr. vm_compute in Hr. destruct Hr as [<-|[]].
  vm_compute. split_and!; discriminate.
Defined.



(** C2 refuted: the second submission's aadhar image has the bytes of the
    stored aadhar image, but both its files are named "scan.png" and stored
    in the same millisecond, so the college ID overwrites the aadhar file
    before it is hashed; the submission is accepted and stored, with the
    college ID's digest in both hash fields. *)
Lemma same_path_aadhar_accepted :
  (exists r, In r (store w_first) /\ aadharImageHash r = sample_md5_hex [Byte.x61; Byte.x62]) /\
  req_aadharImage rq_same_name_files = Some (sample_png "scan.png" [Byte.x61; Byte.x62]) /\
  status (snd (sample_register sample_env rq_same_name_files w_first)) = 200 /\
  map (fun r => (aadharImageHash r, collegeIdHash r))
      (store (fst (sample_register sample_env rq_same_name_files w_first))) =
    [(sample_md5_hex [Byte.x61; Byte.x62], sample_md5_hex [Byte.x63; Byte.x64]);
     (sample_md5_hex [Byte.x65; Byte.x66], sample_md5_hex [Byte.x65; Byte.x66])].
Proof.
  split; [vm_compute; eexists; split; [left; reflexivity | reflexivity]|].
  split_and!; vm_compute; reflexivity.
Defined.

(** C7 refuted: an aadhar of twelve letters passes validation; the
    submission is accepted and stored. *)
Lemma letters_aadhar_accepted :
  validation_errors sample_isEmail rq_letters_aadhar = [] /\
  status (snd (sample_register sample_env rq_letters_aadhar empty_world)) = 200 /\
  map aadhar (store (fst (sample_register sample_env rq_letters_aadhar empty_world))) =
    ["abcdefghijkl"].
Proof. split_and!; vm_compute; reflexivity. Defined.

(** C8 at a sample submission with mobile "+919876543210". *)
Lemma prefixed_mobile_passes_validation_witness :
  mobile_regex (req_mobile rq_prefixed_mobile) = false /\
  ~ In ("mobile", "Invalid mobile number") (validation_errors sample_isEmail rq_prefixed_mobile).
Proof.
  apply (prefixed_mobile_passes_validation sample_isEmail rq_prefixed_mobile "9876543210");
    reflexivity.
Defined.

(** C8 refuted: after "9876543210" is registered, "+919876543210" is
    accepted as a second record, so one number is stored twice. *)
Lemma prefixed_mobile_accepted :
  status (snd (sample_register sample_env rq_prefixed_mobile w_first)) = 200 /\
  map mobile (store (fst (sample_register sample_env rq_prefixed_mobile w_first))) =
    ["9876543210"; "+919876543210"].
Proof. split; vm_compute; reflexivity. Defined.

(** The in-memory variant with the same stand-ins, and the world after it
    accepted [rq_first]. *)
Local Abbreviation sample_register_001 :=
  (register_001 sample_isEmail sample_outlook sample_yahoo sample_yandex
     sample_sha256_hex sample_sendMail_error).
Local Abbreviation w_first_001 := (fst (sample_register_001 sample_env rq_first empty_world)).

(** X1 at the store holding one accepted registration. *)
Lemma reachable_schema_valid_witness :
  Forall (fun r => schema_valid r = true) (store w_first).
Proof.
  apply (reachable_schema_valid sample_md5_hex sample_isEmail sample_outlook sample_yahoo
           sample_yandex w_first w_first_reachable).
Defined.

(** X2 after the mixed-case address "Asha@Example.COM" was accepted. *)
Lemma reachable_emails_lowercase_witness :
  map email (store (fst (sample_register sample_env rq_email_case empty_world))) =
    ["asha@example.com"] /\
  Forall (fun r => toLowerCase (email r) = email r)
    (store (fst (sample_register sample_env rq_email_case empty_world))).
Proof.
  split; [vm_compute; reflexivity|].
  apply List.Forall_forall.
  apply (reachable_emails_lowercase sample_md5_hex sample_isEmail sample_outlook sample_yahoo
           sample_yandex (fst (sample_register sample_env rq_email_case empty_world))).
  eapply reachable_step; [apply reachable_empty | apply step_register].
Defined.

(** X3 at the world after one accepted registration. *)
Lemma reachable_mails_match_witness :
  NoDup (map mail_registrationId (outbox w_first)) /\
  forall m, In m (outbox w_first) ->
    exists r, In r (store w_first) /\ email r = mail_to m /\ registrationId r = mail_registrationId m.
Proof.
  apply (reachable_mails_match sample_md5_hex sample_isEmail sample_outlook sample_yahoo
           sample_yandex w_first w_first_reachable).
Defined.

(** X4 at the world after two mailed registrations: the second write
    reads the file back and leaves only empty rows. *)
Lemma reachable_sheet_shape_witness :
  sheet (fst (sample_register sample_env rq_cross_document w_first)) =
    excel_header :: [] :: [[]; []] /\
  (sheet (fst (sample_register sample_env rq_cross_document w_first)) = [] \/
   (exists k, 0 < k <= length (store (fst (sample_register sample_env rq_cross_document w_first))) /\
      sheet (fst (sample_register sample_env rq_cross_document w_first)) =
        excel_header :: [] ::
          map excel_row (take k (store (fst (sample_register sample_env rq_cross_document w_first))))) \/
   (exists k, 0 < k <= length (store (fst (sample_register sample_env rq_cross_document w_first))) /\
      sheet (fst (sample_register sample_env rq_cross_document w_first)) =
        excel_header :: [] :: repeat [] k)).
Proof.
  split; [vm_compute; reflexivity|].
  apply (reachable_sheet_shape sample_md5_hex sample_isEmail sample_outlook sample_yahoo
           sample_yandex).
  eapply reachable_step; [apply w_first_reachable | apply step_register].
Defined.

(** X5 at a rejected resubmission of an aadhar image. *)
Lemma register_400_unchanged_witness :
  status (snd (sample_register sample_env rq_same_aadhar_image w_first)) = 400 /\
  fst (sample_register sample_env rq_same_aadhar_image w_first) = w_first.
Proof.
  split; [vm_compute; reflexivity|].
  apply (register_400_unchanged sample_md5_hex sample_isEmail sample_outlook sample_yahoo
           sample_yandex sample_env rq_same_aadhar_image w_first).
  vm_compute. reflexivity.
Defined.

(** X6 at the second accepted submission: the sheet file exists. *)
Lemma register_success_effect_witness :
  sheet w_first = excel_header :: [] :: map excel_row (store w_first)
    /\
  exists r, store (fst (sample_register sample_env rq_cross_document w_first)) = store w_first ++ [r] /\
    isConfirmed r = false /\ email r = normalized_email sample_outlook sample_yahoo sample_yandex
                                        (req_email rq_cross_document) /\
    email r <> "false" /\ registrationId r = req_registrationId rq_cross_document /\
    outbox (fst (sample_register sample_env rq_cross_document w_first)) =
      outbox w_first ++ [mkMail (email r) (registrationId r)] /\
    (sheet w_first = [] ->
       sheet (fst (sample_register sample_env rq_cross_document w_first)) =
         excel_header :: [] :: map excel_row (store (fst (sample_register sample_env rq_cross_document w_first)))) /\
    (forall header rest, sheet w_first = header :: rest ->
       sheet (fst (sample_register sample_env rq_cross_document w_first)) =
         header :: [] :: repeat [] (length (store (fst (sample_register sample_env rq_cross_document w_first))))).
Proof.
  split; [vm_compute; reflexivity|].
  apply (register_success_effect sample_md5_hex sample_isEmail sample_outlook sample_yahoo
           sample_yandex sample_env rq_cross_document w_first).
  vm_compute. reflexivity.
Defined.

(** X7 at a submission without its college ID. *)
Lemma register_missing_file_witness :
  sample_register sample_env rq_missing_college w_first =
    (w_first, Resp 400 (JError "Both Aadhar card and College ID images are required")).
Proof.
  apply (register_missing_file sample_md5_hex sample_isEmail sample_outlook sample_yahoo
           sample_yandex sample_env rq_missing_college w_first);
    [vm_compute; reflexivity | vm_compute; reflexivity | right; reflexivity].
Defined.

(** X8 at team " Alpha " submitting again for the event of [rq_first]. *)
Lemma register_team_in_event_witness :
  sample_register sample_env rq_same_team w_first =
    (w_first, Resp 400 (JError "Team 'Alpha' is already registered for 'Hackathon'")).
Proof.
  apply (register_team_in_event sample_md5_hex sample_isEmail sample_outlook sample_yahoo
           sample_yandex sample_env rq_same_team w_first
           (sample_png "a2.png" [Byte.x67]) (sample_png "c2.png" [Byte.x68])
           (new_registration sample_env (sanitize sample_outlook sample_yahoo sample_yandex rq_first)
              (disk_path 17 (sample_png "aadhar.png" [Byte.x61; Byte.x62]))
              (sample_md5_hex [Byte.x61; Byte.x62])
              (disk_path 17 (sample_png "college.png" [Byte.x63; Byte.x64]))
              (sample_md5_hex [Byte.x63; Byte.x64])));
    [vm_compute; reflexivity | vm_compute; reflexivity | reflexivity | reflexivity
    | intros x Hx; vm_compute in Hx; destruct Hx as [<-|[]]; split; vm_compute; discriminate
    | vm_compute; left; reflexivity | reflexivity | vm_compute; reflexivity].
Defined.

(** X9 at a file named "scan" and at the dotfile ".png". *)
Lemma file_error_needs_extension_witness :
  file_error (mkUpload "scan" "image/png" [Byte.x61]) =
    Some "Only images (jpeg, jpg, png) and PDFs are allowed" /\
  file_error (mkUpload ".png" "image/png" [Byte.x61]) =
    Some "Only images (jpeg, jpg, png) and PDFs are allowed".
Proof. apply (file_error_needs_extension "png" "image/png" [Byte.x61]). reflexivity. Defined.

(** X10 at the mimetype "application/x-pdf-exploit". *)
Lemma file_error_mimetype_substring_witness :
  file_error (mkUpload "aadhar.png" ("application/x-" +:+ "pdf" +:+ "-exploit") [Byte.x61]) = None.
Proof.
  apply (file_error_mimetype_substring (sample_png "aadhar.png" [Byte.x61])
           "application/x-" "pdf" "-exploit");
    [simpl; tauto | vm_compute; reflexivity | vm_compute; discriminate].
Defined.

(** X11 at "asha+news@gmail.com". *)
Lemma normalized_email_drops_tag_witness :
  normalized_email sample_outlook sample_yahoo sample_yandex ("asha" +:+ "+" +:+ "news" +:+ "@" +:+ "gmail.com") =
  normalized_email sample_outlook sample_yahoo sample_yandex ("asha" +:+ "@" +:+ "gmail.com").
Proof.
  apply (normalized_email_drops_tag sample_outlook sample_yahoo sample_yandex "asha" "news" "gmail.com");
    reflexivity.
Defined.

(** X12 at "+news@outlook.com". *)
Lemma normalized_email_empty_user_witness :
  normalized_email sample_outlook sample_yahoo sample_yandex ("+" +:+ "news" +:+ "@" +:+ "outlook.com") =
    "false".
Proof.
  apply (normalized_email_empty_user sample_outlook sample_yahoo sample_yandex "news" "outlook.com");
    reflexivity.
Defined.

(** X14 at a run where the transport refuses the mail. *)
Lemma register_500_is_mail_failure_witness :
  snd (sample_register sample_env_smtp_down rq_first empty_world) =
    Resp 500 (JError "Failed to send confirmation email") /\
  outbox (fst (sample_register sample_env_smtp_down rq_first empty_world)) = outbox empty_world /\
  exists r, store (fst (sample_register sample_env_smtp_down rq_first empty_world)) =
              store empty_world ++ [r].
Proof.
  apply (register_500_is_mail_failure sample_md5_hex sample_isEmail sample_outlook sample_yahoo
           sample_yandex sample_env_smtp_down rq_first empty_world);
    [intros bs; apply hex_pad_length | vm_compute; reflexivity].
Defined.

(** X16 at the aadhar-image bytes of [rq_first] submitted again to part_001. *)
Lemma register_001_document_seen_witness :
  sample_register_001 sample_env rq_same_aadhar_image w_first_001 =
    (w_first_001, Resp 400 (JError "This Aadhar card or College ID image has already been uploaded")).
Proof.
  apply (register_001_document_seen sample_isEmail sample_outlook sample_yahoo sample_yandex
           sample_sha256_hex sample_sendMail_error sample_env rq_same_aadhar_image w_first_001
           (sample_png "copy.png" [Byte.x61; Byte.x62]) (sample_png "id2.png" [Byte.x65; Byte.x66]));
    [vm_compute; reflexivity | vm_compute; reflexivity | reflexivity | reflexivity |].
  vm_compute. eexists. split; [left; reflexivity | left; reflexivity].
Defined.

(** X18 at a file named "payload.exe" sent as "image/png". *)
Lemma file_error_001_any_name_witness :
  file_error_001 (mkUpload "payload.exe" ("image/" +:+ "png" +:+ "") [Byte.x61]) = None.
Proof.
  apply (file_error_001_any_name "payload.exe" "image/" "png" "" [Byte.x61]);
    [simpl; tauto | vm_compute; discriminate].
Defined.
